(** * Location-based services: spatial query views and the route importer

    A shallow embedding of [geo/views.py], [geo/models.py] and
    [geo/management/commands/import_routes.py].

    The views delegate every geometric computation to the spatial database
    (distance annotation, [within], [intersects], [distance_lte]) and every
    conversion of a query parameter to the Python built-ins [float] and
    [int].  Those collaborators are interfaces here ([PyBuiltins], [Gis]);
    the control flow of the views and of the importer is modelled as it is
    written.  A small planar backend and a decimal reader instantiate the
    interfaces for the concrete examples, which use the data of
    [geo/tests.py]. *)

From stdpp Require Import gmap strings list fin_maps sorting pretty.
From Stdlib Require Import QArith Ascii.

Set Warnings "-register-all".
Close Scope Q_scope.
Open Scope string_scope.

(** ** Python values *)

(** A Python [float]: a finite double is a rational number; [inf] and [nan]
    are kept apart. *)
Inductive pyfloat :=
  | Finite (q : Q)
  | Infinity (negative : bool)
  | NaN.

(** The values [json.load] produces.  An object is a [dict]: one value per
    key. *)
Inductive json :=
  | JNull
  | JBool (b : bool)
  | JNum (n : pyfloat)
  | JStr (s : string)
  | JArr (l : list json)
  | JObj (m : gmap string json).

(** Exceptions that leave the modelled code. [CommandError] is the
    importer's fatal error; the others are never caught by it. [GeosError]
    stands for what the GEOS binding raises apart from [TypeError]. *)
Inductive exn :=
  | CommandError (msg : string)
  | TypeError
  | AttributeError
  | ValueError
  | GeosError.

(** Outcome of a GEOS constructor call: the importer catches [TypeError]
    (and reads its text) and lets everything else through. *)
Inductive geos_result (A : Type) :=
  | GeosOk (g : A)
  | GeosTypeError (msg : string)
  | GeosFailure.
Arguments GeosOk {A} g.
Arguments GeosTypeError {A} msg.
Arguments GeosFailure {A}.

(** Python truthiness ([not x], [x or y]). *)
Definition truthy (j : json) : bool :=
  match j with
  | JNull => false
  | JBool b => b
  | JNum (Finite q) => negb (Qeq_bool q 0%Q)
  | JNum _ => true
  | JStr s => negb (String.eqb s "")
  | JArr l => negb (bool_decide (l = []))
  | JObj m => negb (bool_decide (m = ∅))
  end.

(** [x.get(key)]: only a dict has the method; a missing key gives [None]. *)
Definition py_get (j : json) (key : string) : exn + json :=
  match j with
  | JObj m => inr (default JNull (m !! key))
  | _ => inl AttributeError
  end.

(** [len(x)]. *)
Definition py_len (j : json) : exn + nat :=
  match j with
  | JStr s => inr (String.length s)
  | JArr l => inr (length l)
  | JObj m => inr (size m)
  | _ => inl TypeError
  end.

(** [for x in j]: a list gives its items, a string its characters, a dict
    its keys. *)
Definition py_iter (j : json) : exn + list json :=
  match j with
  | JArr l => inr l
  | JStr s => inr ((λ c, JStr (String c EmptyString)) <$> String.list_ascii_of_string s)
  | JObj m => inr ((λ kv, JStr kv.1) <$> map_to_list m)
  | _ => inl TypeError
  end.

(** [needle in hay] on strings. *)
Fixpoint contains (needle hay : string) : bool :=
  String.prefix needle hay ||
  match hay with
  | EmptyString => false
  | String _ rest => contains needle rest
  end.

(** ** Geometry and the interfaces of the collaborators *)

(** [Point(x, y, srid=4326)]: x is the longitude, y the latitude. *)
Record Point := { x : pyfloat; y : pyfloat }.

(** A polygon is its outer ring. *)
Definition Polygon := list Point.

(** The built-ins the views call on query parameters, and the text Python
    gives a value that is not a string ([str], used when such a value ends
    up as a route name). [None] is [ValueError]. *)
Class PyBuiltins := {
  float_of_str : string → option pyfloat;
  int_of_str : string → option Z;
  str_of_value : json → string
}.

(** The spatial library and database.
    - [LineString_init]: the GEOS constructor applied to a coordinate array;
    - [Distance]: the distance annotation used as sort key;
    - [distance_lte loc origin km]: the [location__distance_lte] lookup
      against [D(km=km)];
    - [within], [intersects]: the lookups of the same name. *)
Class Gis := {
  LineString : Type;
  LineString_init : json → geos_result LineString;
  Distance : Point → Point → Q;
  distance_lte : Point → Point → pyfloat → bool;
  within : Point → Polygon → bool;
  intersects : LineString → Polygon → bool
}.

#[global] Instance Qle_dec (a b : Q) : Decision (a <= b)%Q.
Proof.
  destruct (Qle_bool a b) eqn:E.
  - left. by apply Qle_bool_iff.
  - right. intros H. apply Qle_bool_iff in H. congruence.
Defined.

(** ** The models of [geo/models.py] *)

Record Area := { area_name : string; boundary : Polygon }.

Record Amenity := {
  name : string;
  category : string;
  location : Point;
  description : string
}.

(** A view returns serialized rows, or raises [ValidationError] (a 400
    response), or lets another exception through. *)
Inductive response (A : Type) :=
  | Ok (data : A)
  | ValidationError (detail : string)
  | Unhandled (e : exn).
Arguments Ok {A} data.
Arguments ValidationError {A} detail.
Arguments Unhandled {A} e.

(** [Area.objects.get(pk=...)]: the row, [Area.DoesNotExist], or the
    [ValueError] of a key that is not an integer. *)
Inductive get_result := Found (a : Area) | DoesNotExist | BadKey.

Section Models.
Context `{PyBuiltins, Gis}.

(** The tables. Areas are looked up by primary key; [Route.name] is
    unique, so the route table is a map from name to path. *)
Record Db := {
  amenities : list Amenity;
  areas : gmap Z Area;
  route_table : gmap string LineString
}.

(** ** The views of [geo/views.py] *)

(** [float(request.query_params.get(key))]: [None] is one of the two
    caught exceptions, [TypeError] for a missing key and [ValueError] for
    text that is not a float. *)
Definition float_param (q : gmap string string) (key : string) : option pyfloat :=
  q !! key ≫= float_of_str.

(** [.order_by("distance")] over the annotated rows. The query has no second
    key: the order among rows at the same distance is the database's, and
    [order_by_distance] is one such order. *)
Definition by_distance (origin : Point) : relation Amenity :=
  λ a b, (Distance (location a) origin <= Distance (location b) origin)%Q.

Definition order_by_distance (origin : Point) (rows : list Amenity) : list Amenity :=
  merge_sort (by_distance origin) rows.

Definition NearestAmenities_get (db : Db) (q : gmap string string)
  : response (list Amenity) :=
  match float_param q "lat", float_param q "lng" with
  | Some lat, Some lng =>
      let limit_param := default "10" (q !! "limit") in
      match int_of_str limit_param with
      | None => ValidationError "Query param 'limit' must be a positive integer."
      | Some limit =>
          if bool_decide (limit ≤ 0)%Z
          then ValidationError "Query param 'limit' must be greater than zero."
          else
            let limit := Z.min limit 100 in
            let origin := {| x := lng; y := lat |} in
            Ok (take (Z.to_nat limit) (order_by_distance origin (amenities db)))
      end
  | _, _ => ValidationError "Query params 'lat' and 'lng' are required floats."
  end.

(** [Area.objects.get(pk=area_id)]: the key is converted with [int]
    ([ValueError] when that fails), then the row is fetched. *)
Definition Area_objects_get (db : Db) (area_id : string) : get_result :=
  match int_of_str area_id with
  | None => BadKey
  | Some pk =>
      match areas db !! pk with
      | Some a => Found a
      | None => DoesNotExist
      end
  end.

(** [not area_id]: the parameter is absent or empty. *)
Definition not_area_id (area_id : option string) : bool :=
  match area_id with
  | None => true
  | Some s => String.eqb s ""
  end.

Definition AmenitiesWithinArea_get (db : Db) (q : gmap string string)
  : response (list Amenity) :=
  let area_id := q !! "area_id" in
  if not_area_id area_id
  then ValidationError "Query param 'area_id' is required."
  else
    match Area_objects_get db (default "" area_id) with
    | DoesNotExist => ValidationError "Area not found."
    | BadKey => Unhandled ValueError
    | Found area =>
        Ok (filter (λ a, within (location a) (boundary area) = true) (amenities db))
    end.

Definition RoutesIntersectingArea_get (db : Db) (q : gmap string string)
  : response (list (string * LineString)) :=
  let area_id := q !! "area_id" in
  if not_area_id area_id
  then ValidationError "Query param 'area_id' is required."
  else
    match Area_objects_get db (default "" area_id) with
    | DoesNotExist => ValidationError "Area not found."
    | BadKey => Unhandled ValueError
    | Found area =>
        Ok (filter (λ r, intersects r.2 (boundary area) = true)
              (map_to_list (route_table db)))
    end.

Definition AmenitiesWithinRadius_get (db : Db) (q : gmap string string)
  : response (list Amenity) :=
  match float_param q "lat", float_param q "lng",
        float_of_str (default "1.0" (q !! "km")) with
  | Some lat, Some lng, Some km =>
      let origin := {| x := lng; y := lat |} in
      Ok (filter (λ a, distance_lte (location a) origin km = true) (amenities db))
  | _, _, _ => ValidationError "Params 'lat','lng','km' are required floats."
  end.

End Models.


(** ** The importer of [geo/management/commands/import_routes.py] *)

(** [str.replace('_', ' ')] and [str.title()] on ASCII text: a letter that
    follows a letter is lowered, any other letter is raised. *)
Definition is_upper (c : Ascii.ascii) : bool :=
  let n := Ascii.nat_of_ascii c in (65 <=? n)%nat && (n <=? 90)%nat.
Definition is_lower (c : Ascii.ascii) : bool :=
  let n := Ascii.nat_of_ascii c in (97 <=? n)%nat && (n <=? 122)%nat.
Definition to_upper (c : Ascii.ascii) : Ascii.ascii :=
  if is_lower c then Ascii.ascii_of_nat (Ascii.nat_of_ascii c - 32) else c.
Definition to_lower (c : Ascii.ascii) : Ascii.ascii :=
  if is_upper c then Ascii.ascii_of_nat (Ascii.nat_of_ascii c + 32) else c.

Fixpoint replace_underscores (s : string) : string :=
  match s with
  | EmptyString => EmptyString
  | String c rest =>
      String (if Ascii.eqb c "_" then " "%char else c) (replace_underscores rest)
  end.

Fixpoint title_from (previous_is_cased : bool) (s : string) : string :=
  match s with
  | EmptyString => EmptyString
  | String c rest =>
      String (if previous_is_cased then to_lower c else to_upper c)
             (title_from (is_upper c || is_lower c) rest)
  end.

Definition title (s : string) : string := title_from false s.

(** [x == "text"] for a JSON value [x]. *)
Definition is_str (j : json) (text : string) : bool :=
  match j with
  | JStr s => String.eqb s text
  | _ => false
  end.

(** One input file after path resolution and [json.load]. *)
Record geojson_file := {
  file_name : string;
  file_stem : string;
  payload : json
}.

(** Code that only computes: a value or the exception raised. *)
#[global] Instance exn_ret : MRet (sum exn) := λ A, inr.
#[global] Instance exn_bind : MBind (sum exn) := λ A B f r,
  match r with
  | inr a => f a
  | inl e => inl e
  end.

Section Importer.
Context `{PyBuiltins, Gis}.

(** [str(x)], as an f-string or a [CharField] takes it. *)
Definition py_str (j : json) : string :=
  match j with
  | JStr s => s
  | _ => str_of_value j
  end.

(** What [handle] reads and writes: the Route table, its two counters and
    the lines written to [self.stdout]. *)
Record state := {
  routes : gmap string LineString;
  imported : nat;
  skipped : nat;
  stdout : list string
}.

(** Statements of [handle]: a state transformer that ends normally or with
    an exception; the state reached is kept in both cases (rows already
    written stay written). *)
Definition M (A : Type) : Type := state → (exn + A) * state.

#[global] Instance M_ret : MRet M := λ A a s, (inr a, s).
#[global] Instance M_bind : MBind M := λ A B f m s,
  match m s with
  | (inr a, s') => f a s'
  | (inl e, s') => (inl e, s')
  end.

Definition raise {A} (e : exn) : M A := λ s, (inl e, s).

Definition lift {A} (r : exn + A) : M A := λ s, (r, s).

Definition write (line : string) : M unit := λ s,
  (inr tt, {| routes := routes s; imported := imported s; skipped := skipped s;
              stdout := stdout s ++ [line] |}).

(** [skipped += 1] *)
Definition skip_one : M unit := λ s,
  (inr tt, {| routes := routes s; imported := imported s; skipped := S (skipped s);
              stdout := stdout s |}).

(** [imported += 1] *)
Definition count_imported : M unit := λ s,
  (inr tt, {| routes := routes s; imported := S (imported s); skipped := skipped s;
              stdout := stdout s |}).

(** [imported = 0; skipped = 0] *)
Definition clear_counters : M unit := λ s,
  (inr tt, {| routes := routes s; imported := 0; skipped := 0; stdout := stdout s |}).

Definition read {A} (field : state → A) : M A := λ s, (inr (field s), s).

(** [Route.objects.update_or_create(name=name, defaults={"path": line})]:
    the row of that name gets the path, a missing row is created; the
    answer is [created]. The row is taken to fit its columns: what the
    database does with a name of more than 100 characters or a line with a
    third coordinate is outside this model. *)
Definition update_or_create (name : string) (line : LineString) : M bool := λ s,
  (inr (bool_decide (routes s !! name = None)),
   {| routes := <[name := line]> (routes s); imported := imported s;
      skipped := skipped s; stdout := stdout s |}).

(** [Route.objects.all().delete()]: the answer is the number of rows. *)
Definition delete_all_routes : M nat := λ s,
  (inr (size (routes s)),
   {| routes := ∅; imported := imported s; skipped := skipped s; stdout := stdout s |}).

(** [for index, item in enumerate(items, start=index)] *)
Fixpoint for_each {A} (body : nat → A → M unit) (index : nat) (items : list A) : M unit :=
  match items with
  | [] => mret tt
  | item :: rest => body index item ;; for_each body (S index) rest
  end.

(** [[coords for coords in coordinates if len(coords) >= 2]] *)
Fixpoint keep_long (members : list json) : exn + list json :=
  match members with
  | [] => mret []
  | coords :: rest =>
      n ← py_len coords;
      kept ← keep_long rest;
      mret (if bool_decide (2 ≤ n)%nat then coords :: kept else kept)
  end.

(** The name given to segment [segment_idx] of a feature that produced
    [nsegments] segments. *)
Definition route_name (base_name : string) (nsegments segment_idx : nat) : string :=
  if bool_decide (1 < nsegments)%nat
  then base_name +:+ " (Segment " +:+ pretty segment_idx +:+ ")"
  else base_name.

(** The body of the loop over [segments]. *)
Definition import_segment (file : geojson_file) (index : nat) (base_name : string)
    (nsegments : nat) (segment_idx : nat) (segment : json) : M unit :=
  n ← lift (py_len segment);
  if bool_decide (n < 2)%nat then skip_one
  else
    match LineString_init segment with
    | GeosTypeError msg =>
        raise (CommandError (file_name file +:+ " feature " +:+ pretty index +:+
                             " segment " +:+ pretty segment_idx +:+ ": " +:+ msg))
    | GeosFailure => raise GeosError
    | GeosOk line =>
        let name := route_name base_name nsegments segment_idx in
        created ← update_or_create name line;
        count_imported;;
        write ((if created : bool then "Created" else "Updated") +:+ " route: " +:+ name)
    end.

(** [properties.get("Name") or properties.get("name") or f"... Feature {index}"] *)
Definition resolve_base_name (file : geojson_file) (index : nat) (properties : json)
    : exn + string :=
  upper_name ← py_get properties "Name";
  if truthy upper_name then mret (py_str upper_name)
  else
    lower_name ← py_get properties "name";
    if truthy lower_name then mret (py_str lower_name)
    else mret (title (replace_underscores (file_stem file)) +:+ " Feature " +:+ pretty index).

(** Normalisation of the geometry into segments; [None] is the branch of an
    unsupported geometry type. *)
Definition normalize (geom_type coordinates : json) : exn + option (list json) :=
  if is_str geom_type "LineString" then mret (Some [coordinates])
  else if is_str geom_type "MultiLineString" then
    members ← py_iter coordinates;
    segments ← keep_long members;
    mret (Some segments)
  else mret None.

(** The body of the loop over [features]. *)
Definition import_feature (file : geojson_file) (index : nat) (feature : json) : M unit :=
  geometry ← lift (py_get feature "geometry");
  if negb (truthy geometry) then skip_one
  else
    props ← lift (py_get feature "properties");
    let properties := if truthy props then props else JObj ∅ in
    base_name ← lift (resolve_base_name file index properties);
    geom_type ← lift (py_get geometry "type");
    coordinates ← lift (py_get geometry "coordinates");
    if negb (truthy coordinates) then skip_one
    else
      normalized ← lift (normalize geom_type coordinates);
      match normalized with
      | None =>
          write (file_name file +:+ " feature " +:+ pretty index +:+
                 ": unsupported geometry " +:+ py_str geom_type +:+ ", skipping.");;
          skip_one
      | Some segments =>
          if bool_decide (segments = []) then skip_one
          else for_each (import_segment file index base_name (length segments)) 1 segments
      end.

(** The body of the loop over [files]. *)
Definition import_file (file : geojson_file) : M unit :=
  features ← lift (py_get (payload file) "features");
  if negb (truthy features) then write (file_name file +:+ ": no features found.")
  else
    items ← lift (py_iter features);
    for_each (import_feature file) 1 items.

Definition summary (imported skipped : nat) : string :=
  "Imported or updated " +:+ pretty imported +:+ " route segments" +:+
  (if bool_decide (skipped = 0) then "." else "; skipped " +:+ pretty skipped +:+ ".").

(** [Command.handle], from the resolved list of files on. *)
Definition handle (reset : bool) (files : list geojson_file) : M unit :=
  if bool_decide (files = []) then raise (CommandError "No GeoJSON files found to import.")
  else
    (if reset
     then deleted ← delete_all_routes;
          write ("Deleted " +:+ pretty deleted +:+ " existing routes.")
     else mret tt);;
    clear_counters;;
    for_each (λ _ file, import_file file) 0 files;;
    count ← read imported;
    if bool_decide (count = 0) then raise (CommandError "No routes were imported.")
    else
      skips ← read skipped;
      write (summary count skips).

(** A run of the command on a Route table. *)
Definition run (reset : bool) (files : list geojson_file) (table : gmap string LineString)
    : (exn + unit) * state :=
  handle reset files {| routes := table; imported := 0; skipped := 0; stdout := [] |}.

(** ** Notions used to state the properties of the importer *)

(** The Route table after a sequence of upserts. *)
Definition upserts (ups : list (string * LineString)) (table : gmap string LineString)
    : gmap string LineString :=
  foldl (λ t u, <[u.1 := u.2]> t) table ups.

Definition same_counters (s1 s2 : state) : Prop :=
  imported s1 = imported s2 ∧ skipped s1 = skipped s2.

(** A statement is blind to the Route table when two runs of it that start
    with the same counters end the same way, with the same counters, after
    the same upserts. *)
Definition table_blind {A} (m : M A) : Prop :=
  ∀ s1 s2, same_counters s1 s2 →
    ∃ ups,
      (m s1).1 = (m s2).1
      ∧ same_counters (m s1).2 (m s2).2
      ∧ routes (m s1).2 = upserts ups (routes s1)
      ∧ routes (m s2).2 = upserts ups (routes s2).

(** [len(coords) >= 2], false as well for a value without a length. *)
Definition is_long (coords : json) : bool :=
  match py_len coords with
  | inr n => bool_decide (2 ≤ n)%nat
  | inl _ => false
  end.

(** Feature [index] of [file] has a geometry, of type [geom_type] and with
    [coordinates], and resolves to [base_name]. *)
Definition feature_reads (file : geojson_file) (index : nat) (feature : json)
    (base_name : string) (geom_type coordinates : json) : Prop :=
  ∃ geometry props,
    py_get feature "geometry" = inr geometry
    ∧ truthy geometry = true
    ∧ py_get feature "properties" = inr props
    ∧ resolve_base_name file index (if truthy props then props else JObj ∅) = inr base_name
    ∧ py_get geometry "type" = inr geom_type
    ∧ py_get geometry "coordinates" = inr coordinates.

End Importer.


(** ** The files of a run: the first part of [Command.handle] *)

(** The [pathlib] operations and the disk they look at.
    - [Path raw]: the path of a command-line argument;
    - [joinpath p raw]: [p / raw];
    - [path_exists p]: [p.exists()];
    - [glob_sorted dir pattern]: [sorted(dir.glob(pattern))];
    - [read_file p]: the name and stem of [p] and what [json.load] gives for
      its content, for a file that loads. *)
Class FileSystem := {
  path : Type;
  Path : string → path;
  is_absolute : path → bool;
  joinpath : path → string → path;
  path_exists : path → bool;
  glob_sorted : path → string → list path;
  read_file : path → geojson_file
}.

Section Command.
Context `{PyBuiltins, Gis, FileSystem}.

(** [base_dir / "geo" / "data"] *)
Definition data_dir (base_dir : path) : path :=
  joinpath (joinpath base_dir "geo") "data".

(** The body of the loop over [raw_paths]: the path itself when absolute,
    else under the project; when that does not exist, under the data
    directory. *)
Definition resolve_path (base_dir : path) (raw : string) : exn + path :=
  let candidate := Path raw in
  let candidate :=
    if negb (is_absolute candidate) then joinpath base_dir raw else candidate in
  let candidate :=
    if negb (path_exists candidate) then joinpath (data_dir base_dir) raw else candidate in
  if negb (path_exists candidate)
  then inl (CommandError ("GeoJSON file not found: " +:+ raw))
  else inr candidate.

Fixpoint resolve_paths (base_dir : path) (raw_paths : list string) : exn + list path :=
  match raw_paths with
  | [] => mret []
  | raw :: rest =>
      candidate ← resolve_path base_dir raw;
      files ← resolve_paths base_dir rest;
      mret (candidate :: files)
  end.

(** The files to process: those of the arguments, or by default the route
    files of the data directory. *)
Definition resolve_files (base_dir : path) (raw_paths : list string) : exn + list path :=
  if bool_decide (raw_paths = []) then inr (glob_sorted (data_dir base_dir) "routes_*.geojson")
  else resolve_paths base_dir raw_paths.

(** [Command.handle] with its options [paths] and [reset]. *)
Definition Command_handle (base_dir : path) (raw_paths : list string) (reset : bool)
    : M unit :=
  files ← lift (resolve_files base_dir raw_paths);
  handle reset (read_file <$> files).

(** Properties that give a feature no name: "Name" and "name" are absent or
    falsy. *)
Definition unnamed (properties : json) : Prop :=
  ∃ upper_name lower_name,
    py_get properties "Name" = inr upper_name ∧ truthy upper_name = false
    ∧ py_get properties "name" = inr lower_name ∧ truthy lower_name = false.

(** The candidate tried first for an argument. *)
Definition first_candidate (base_dir : path) (raw : string) : path :=
  if is_absolute (Path raw) then Path raw else joinpath base_dir raw.

(** A statement is accounted for when the Route table it leaves is the one
    it found after some upserts, as many as it adds to [imported], and it
    only adds to [skipped] and to the output. *)
Definition accounted {A} (m : M A) : Prop :=
  ∀ s, ∃ ups lines,
    routes (m s).2 = upserts ups (routes s)
    ∧ imported (m s).2 = (imported s + length ups)%nat
    ∧ (skipped s ≤ skipped (m s).2)%nat
    ∧ stdout (m s).2 = (stdout s ++ lines)%list.

End Command.


(** ** A concrete backend for the examples *)

Module Planar.

(** A reader of plain decimal text: an optional sign, digits, and for a
    float an optional fraction. Python reads such text the same way. *)
Definition digit (c : ascii) : option Z :=
  let n := nat_of_ascii c in
  if (48 <=? n)%nat && (n <=? 57)%nat then Some (Z.of_nat (n - 48)) else None.

Fixpoint read_digits (acc : Z) (s : string) : option Z :=
  match s with
  | EmptyString => Some acc
  | String c rest => d ← digit c; read_digits (10 * acc + d) rest
  end.

Definition read_number (s : string) : option Z :=
  if String.eqb s "" then None else read_digits 0 s.

Definition split_sign (s : string) : bool * string :=
  match s with
  | String "-" rest => (true, rest)
  | String "+" rest => (false, rest)
  | _ => (false, s)
  end.

Fixpoint split_dot (s : string) : string * option string :=
  match s with
  | EmptyString => (EmptyString, None)
  | String "." rest => (EmptyString, Some rest)
  | String c rest => let '(whole, fraction) := split_dot rest in (String c whole, fraction)
  end.

Definition decimal_int (s : string) : option Z :=
  let '(negative, digits) := split_sign s in
  n ← read_number digits;
  Some (if negative : bool then - n else n)%Z.

Definition decimal_float (s : string) : option pyfloat :=
  let '(negative, body) := split_sign s in
  let '(whole, fraction) := split_dot body in
  w ← read_number whole;
  f ← read_digits 0 (default "" fraction);
  let scale := (10 ^ Z.of_nat (String.length (default "" fraction)))%Z in
  let magnitude := (w * scale + f)%Z in
  Some (Finite (Qmake (if negative : bool then - magnitude else magnitude) (Z.to_pos scale))).

(** The text of the values that are not strings, as far as the examples
    need it. *)
Definition plain_str (j : json) : string :=
  match j with
  | JNull => "None"
  | JBool true => "True"
  | JBool false => "False"
  | JStr s => s
  | _ => "<value>"
  end.

Definition builtins : PyBuiltins :=
  {| float_of_str := decimal_float; int_of_str := decimal_int; str_of_value := plain_str |}.

(** Geometry on the plane of longitude and latitude, one degree taken as
    111 km. *)
Definition coordinate (f : pyfloat) : Q :=
  match f with
  | Finite q => q
  | _ => 0%Q
  end.

Definition Qlt_bool (a b : Q) : bool := negb (Qle_bool b a).

Definition squared_distance (p q : Point) : Q :=
  let dx := (coordinate (x p) - coordinate (x q))%Q in
  let dy := (coordinate (y p) - coordinate (y q))%Q in
  (dx * dx + dy * dy)%Q.

Definition planar_distance_lte (loc origin : Point) (km : pyfloat) : bool :=
  match km with
  | Finite k => Qle_bool 0 k && Qle_bool (squared_distance loc origin * (111 * 111)) (k * k)
  | Infinity negative => negb negative
  | NaN => false
  end.

(** Even-odd rule: the ray from [p] towards larger x crosses edge [a b]. *)
Definition crosses (p a b : Point) : bool :=
  let px := coordinate (x p) in let py := coordinate (y p) in
  let ax := coordinate (x a) in let ay := coordinate (y a) in
  let bx := coordinate (x b) in let by_ := coordinate (y b) in
  negb (Bool.eqb (Qlt_bool py ay) (Qlt_bool py by_)) &&
  Qlt_bool px ((bx - ax) * (py - ay) / (by_ - ay) + ax)%Q.

Definition planar_within (p : Point) (ring : Polygon) : bool :=
  Nat.odd (length (filter (λ edge, crosses p edge.1 edge.2 = true) (zip ring (tail ring)))).

Definition vertex (position : list pyfloat) : Point :=
  {| x := default NaN (position !! 0%nat); y := default NaN (position !! 1%nat) |}.

Definition planar_intersects (path : list (list pyfloat)) (ring : Polygon) : bool :=
  existsb (λ position, planar_within (vertex position) ring) path.

(** The checks of the GEOS constructor on a coordinate array, in its order:
    the input is a list, every coordinate is a list, all of one dimension,
    which is 2 or 3. *)
Fixpoint check_coords (ndim : option nat) (items : list json) : string + unit :=
  match items with
  | [] => inr tt
  | JArr coord :: rest =>
      match ndim with
      | None =>
          if bool_decide (length coord = 2%nat ∨ length coord = 3%nat)
          then check_coords (Some (length coord)) rest
          else inl "Dimension mismatch."
      | Some d =>
          if bool_decide (length coord = d) then check_coords ndim rest
          else inl "Dimension mismatch."
      end
  | _ :: _ => inl "Each coordinate should be a sequence (list or tuple)"
  end.

Definition number (j : json) : option pyfloat :=
  match j with
  | JNum n => Some n
  | _ => None
  end.

Definition position_of (j : json) : option (list pyfloat) :=
  match j with
  | JArr coord => mapM number coord
  | _ => None
  end.

Definition planar_LineString_init (coords : json) : geos_result (list (list pyfloat)) :=
  match coords with
  | JArr items =>
      if bool_decide (length items = 1%nat) then GeosFailure
      else
        match check_coords None items with
        | inl msg => GeosTypeError msg
        | inr _ =>
            match mapM position_of items with
            | Some path => GeosOk path
            | None => GeosFailure
            end
        end
  | _ => GeosTypeError "Invalid initialization input for LineStrings."
  end.

Definition gis : Gis :=
  {| LineString := list (list pyfloat);
     LineString_init := planar_LineString_init;
     Distance := squared_distance;
     distance_lte := planar_distance_lte;
     within := planar_within;
     intersects := planar_intersects |}.

End Planar.

(** ** The data of [geo/tests.py] *)

Module Fixture.

Definition pt (lng lat : Q) : Point := {| x := Finite lng; y := Finite lat |}.

Definition test_area : Area :=
  {| area_name := "Test Area";
     boundary := [pt (-6.28) 53.33; pt (-6.20) 53.33; pt (-6.20) 53.37;
                  pt (-6.28) 53.37; pt (-6.28) 53.33] |}.

Definition cafe : Amenity :=
  {| name := "Brew Lab"; category := "cafe"; location := pt (-6.26) 53.35;
     description := "Coffee spot" |}.

Definition gym : Amenity :=
  {| name := "Lift Hub"; category := "gym"; location := pt (-6.25) 53.34;
     description := "Fitness center" |}.

Definition outside : Amenity :=
  {| name := "Far Cafe"; category := "cafe"; location := pt (-6.24) 53.38;
     description := "Outside area" |}.

Definition river_walk : list (list pyfloat) :=
  [[Finite (-6.27); Finite 53.35]; [Finite (-6.21); Finite 53.35]].

Definition db : @Db Planar.gis :=
  {| amenities := [cafe; gym; outside];
     areas := {[ 1%Z := test_area ]};
     route_table := {[ "River Walk" := river_walk ]} |}.

(** The requests of the tests. *)
Definition nearest_in_area : gmap string string :=
  list_to_map [("lat", "53.35"); ("lng", "-6.26"); ("limit", "5"); ("area_id", "1")].

Definition radius_in_area : gmap string string :=
  list_to_map [("lat", "53.35"); ("lng", "-6.26"); ("km", "5"); ("area_id", "1")].

Definition radius_negative : gmap string string :=
  list_to_map [("lat", "53.35"); ("lng", "-6.26"); ("km", "-1")].

Definition radius_default : gmap string string :=
  list_to_map [("lat", "53.35"); ("lng", "-6.26")].

Definition radius_bad_km : gmap string string :=
  list_to_map [("lat", "53.35"); ("lng", "-6.26"); ("km", "abc")].

Definition nearest_two : gmap string string :=
  list_to_map [("lat", "53.35"); ("lng", "-6.26"); ("limit", "2")].

Definition nearest_bad_limit : gmap string string :=
  list_to_map [("lat", "53.35"); ("lng", "-6.26"); ("limit", "abc")].

Definition bad_limit_no_origin : gmap string string :=
  list_to_map [("limit", "abc")].

Definition within_area : gmap string string := {[ "area_id" := "1" ]}.

Definition within_unknown_area : gmap string string := {[ "area_id" := "7" ]}.

(** GeoJSON input for the importer. *)
Definition position (lng lat : Q) : json := JArr [JNum (Finite lng); JNum (Finite lat)].

Definition long_member : json := JArr [position (-6.27) 53.35; position (-6.21) 53.35].

Definition short_member : json := JArr [position (-6.25) 53.34].

Definition geometry (geom_type : string) (coordinates : json) : json :=
  JObj (list_to_map [("type", JStr geom_type); ("coordinates", coordinates)]).

Definition feature (geom : json) (properties : json) : json :=
  JObj (list_to_map
    [("type", JStr "Feature"); ("geometry", geom); ("properties", properties)]).

Definition named (text : string) : json := JObj {[ "Name" := JStr text ]}.

Definition collection (file stem : string) (features : list json) : geojson_file :=
  {| file_name := file; file_stem := stem;
     payload := JObj (list_to_map [("type", JStr "FeatureCollection");
                                   ("features", JArr features)]) |}.

(** A MultiLineString with three members of two points each. *)
Definition canal_coordinates : json := JArr [long_member; long_member; long_member].

Definition canal : json :=
  feature (geometry "MultiLineString" canal_coordinates) (named "Canal").

Definition three_segments : geojson_file :=
  collection "routes_canal.geojson" "routes_canal" [canal].

(** A MultiLineString with one member of two points and one of a single
    point. *)
Definition mixed_coordinates : json := JArr [long_member; short_member].

Definition mixed : json :=
  feature (geometry "MultiLineString" mixed_coordinates) (named "Mixed").

Definition one_short_member : geojson_file :=
  collection "routes_mixed.geojson" "routes_mixed" [mixed].

(** A MultiLineString whose two members have a single point each, after a
    LineString that imports. *)
Definition all_short_members : geojson_file :=
  collection "routes_short.geojson" "routes_short"
    [feature (geometry "LineString" long_member) (named "Quay");
     feature (geometry "MultiLineString" (JArr [short_member; short_member])) (named "Stub")].

(** Features without a name, one of them a LineString of a single point. *)
Definition unnamed : geojson_file :=
  collection "routes_phoenix_park.geojson" "routes_phoenix_park"
    [feature (geometry "LineString" long_member) JNull;
     feature (geometry "LineString" short_member) JNull;
     feature (geometry "Polygon" long_member) JNull].

(** The line built from [long_member]. *)
Definition long_line : list (list pyfloat) :=
  [[Finite (-6.27); Finite 53.35]; [Finite (-6.21); Finite 53.35]].

(** The state in which a run starts on an empty table. *)
Definition start : @state Planar.gis :=
  {| routes := ∅; imported := 0; skipped := 0; stdout := [] |}.

(** A member whose two items are numbers, not coordinate pairs: the GEOS
    constructor refuses it with a [TypeError]. *)
Definition flat_member : json := JArr [JNum (Finite (-6.25)); JNum (Finite 53.34)].

(** A LineString whose coordinates are [flat_member]. *)
Definition flat_line : json := feature (geometry "LineString" flat_member) (named "Flat").

Definition corrupt : geojson_file :=
  collection "routes_flat.geojson" "routes_flat" [flat_line].

(** A request for an Area under a key that is not a number. *)
Definition within_bad_area : gmap string string := {[ "area_id" := "abc" ]}.

(** A table with one route, as a run may find it. *)
Definition stocked : @state Planar.gis :=
  {| routes := {[ "Old" := long_line ]}; imported := 0; skipped := 0; stdout := [] |}.

End Fixture.

(** ** A disk for the examples *)

Module Disk.

(** Paths are their text; the project is at "/srv/lbs". *)
Definition absolute (p : string) : bool := String.prefix "/" p.

Definition join (p raw : string) : string :=
  if absolute raw then raw else p +:+ "/" +:+ raw.

Definition present : list (string * geojson_file) :=
  [("/srv/lbs/geo/data/routes_canal.geojson", Fixture.three_segments);
   ("/srv/lbs/extra/routes_mixed.geojson", Fixture.one_short_member);
   ("/tmp/routes_short.geojson", Fixture.all_short_members)].

Definition file_exists (p : string) : bool := bool_decide (p ∈ present.*1).

Definition content (p : string) : geojson_file :=
  default {| file_name := p; file_stem := p; payload := JNull |}
          (snd <$> list_find (λ entry, entry.1 = p) present ≫= λ found, Some found.2).

Definition files : FileSystem :=
  {| path := string;
     Path := λ raw, raw;
     is_absolute := absolute;
     joinpath := join;
     path_exists := file_exists;
     glob_sorted := λ dir pattern,
       filter (λ p, String.prefix (dir +:+ "/routes_") p = true) present.*1;
     read_file := content |}.

Definition project : @path files := "/srv/lbs"%string.

(** Arguments of the command and the files they stand for. *)
Definition arguments : list string :=
  ["extra/routes_mixed.geojson"; "routes_canal.geojson"; "/tmp/routes_short.geojson"].

Definition resolved : list (@path files) :=
  ["/srv/lbs/extra/routes_mixed.geojson"%string;
   "/srv/lbs/geo/data/routes_canal.geojson"%string;
   "/tmp/routes_short.geojson"%string].

End Disk.

(** * Properties of the views *)

Section ViewProperties.
Context `{PyBuiltins, Gis}.

#[local] Instance by_distance_total origin : Total (by_distance origin).
Proof.
  intros a b. unfold by_distance.
  destruct (Qlt_le_dec (Distance (location a) origin) (Distance (location b) origin)).
  - left. by apply Qlt_le_weak.
  - by right.
Qed.

#[local] Instance by_distance_trans origin : Transitive (by_distance origin).
Proof. intros a b c. unfold by_distance. apply Qle_trans. Qed.

Lemma StronglySorted_take {A} (R : relation A) n (l : list A) :
  StronglySorted R l → StronglySorted R (take n l).
Proof.
  intros Hl. revert n. induction Hl as [|a l Hl IH Ha]; intros [|n]; simpl;
    try constructor; auto using Forall_take.
Qed.

Lemma order_by_distance_sorted origin rows :
  StronglySorted (by_distance origin) (order_by_distance origin rows).
Proof. apply StronglySorted_merge_sort; apply _. Qed.

Lemma order_by_distance_perm origin rows : order_by_distance origin rows ≡ₚ rows.
Proof. apply merge_sort_Permutation. Qed.

(** What [NearestAmenities] answers once its three parameters are read. *)
Lemma NearestAmenities_get_valid db q lat lng limit :
  float_param q "lat" = Some lat →
  float_param q "lng" = Some lng →
  int_of_str (default "10" (q !! "limit")) = Some limit →
  (0 < limit)%Z →
  NearestAmenities_get db q =
    Ok (take (Z.to_nat (Z.min limit 100))
          (order_by_distance {| x := lng; y := lat |} (amenities db))).
Proof.
  intros Hlat Hlng Hlimit Hpos. unfold NearestAmenities_get.
  rewrite Hlat, Hlng, Hlimit. rewrite bool_decide_false by lia. done.
Qed.

(** The view never looks at [area_id]. *)
Lemma NearestAmenities_get_area_id db q area_id :
  NearestAmenities_get db (<["area_id" := area_id]> q) = NearestAmenities_get db q.
Proof.
  unfold NearestAmenities_get, float_param. by rewrite !lookup_insert_ne.
Qed.

Lemma AmenitiesWithinRadius_get_area_id db q area_id :
  AmenitiesWithinRadius_get db (<["area_id" := area_id]> q) = AmenitiesWithinRadius_get db q.
Proof.
  unfold AmenitiesWithinRadius_get, float_param. by rewrite !lookup_insert_ne.
Qed.

(** C4. A call of NearestAmenities with readable [lat] and [lng] and a
    limit of at least 1 answers with rows in non-decreasing distance to the
    origin; there are at most 100 of them, and at most [limit] of them when
    the limit is in [1,100]. The rows are the first [min limit 100] of all
    amenities in that order, none repeated. *)
Theorem NearestAmenities_limit_sorted db q lat lng limit :
  float_param q "lat" = Some lat →
  float_param q "lng" = Some lng →
  int_of_str (default "10" (q !! "limit")) = Some limit →
  (1 ≤ limit)%Z →
  ∃ rows,
    NearestAmenities_get db q = Ok rows
    ∧ StronglySorted (by_distance {| x := lng; y := lat |}) rows
    ∧ (length rows ≤ 100)%nat
    ∧ ((limit ≤ 100)%Z → (length rows ≤ Z.to_nat limit)%nat)
    ∧ length rows = (Z.to_nat (Z.min limit 100) `min` length (amenities db))%nat
    ∧ rows ⊆+ amenities db.
Proof.
  intros Hlat Hlng Hlimit Hpos.
  rewrite (NearestAmenities_get_valid db q lat lng limit) by (done || lia).
  eexists. split; [done|].
  assert (Hlen : length (take (Z.to_nat (Z.min limit 100))
                   (order_by_distance {| x := lng; y := lat |} (amenities db)))
                 = (Z.to_nat (Z.min limit 100) `min` length (amenities db))%nat).
  { by rewrite length_take, (Permutation_length (order_by_distance_perm _ _)). }
  split; [apply StronglySorted_take, order_by_distance_sorted|].
  split; [rewrite Hlen; lia|].
  split; [intros ?; rewrite Hlen; lia|].
  split; [done|].
  etrans; [apply submseteq_take|].
  apply Permutation_submseteq, order_by_distance_perm.
Qed.

(** C5 (amended). A call of NearestAmenities whose limit is not readable as
    an integer, or is at most zero, fails with a validation error; when
    [lat] and [lng] are readable floats the error text contains "limit". *)
Theorem NearestAmenities_bad_limit db q :
  (int_of_str (default "10" (q !! "limit")) = None
   ∨ ∃ limit, int_of_str (default "10" (q !! "limit")) = Some limit ∧ (limit ≤ 0)%Z) →
  ∃ detail,
    NearestAmenities_get db q = ValidationError detail
    ∧ (is_Some (float_param q "lat") → is_Some (float_param q "lng") →
       contains "limit" detail = true).
Proof.
  intros Hbad. unfold NearestAmenities_get.
  destruct (float_param q "lat") as [lat|], (float_param q "lng") as [lng|];
    try (eexists; split; [done|]; intros [? ?] [? ?]; done).
  destruct Hbad as [-> | (limit & -> & Hle)].
  - eexists; split; [done|]. intros _ _. by vm_compute.
  - rewrite bool_decide_true by done.
    eexists; split; [done|]. intros _ _. by vm_compute.
Qed.

(** C2 (amended). A call of AmenitiesWithinRadius fails with a validation
    error, and answers no rows, when [lat] or [lng] is missing or not
    readable as a float, or when [km] is given and not readable as a
    float. *)
Theorem AmenitiesWithinRadius_bad_params db q :
  (float_param q "lat" = None
   ∨ float_param q "lng" = None
   ∨ ∃ km, q !! "km" = Some km ∧ float_of_str km = None) →
  AmenitiesWithinRadius_get db q =
    ValidationError "Params 'lat','lng','km' are required floats.".
Proof.
  intros Hbad. unfold AmenitiesWithinRadius_get.
  destruct Hbad as [-> | [-> | (km & -> & Hkm)]]; simpl.
  - done.
  - by destruct (float_param q "lat").
  - rewrite Hkm. by destruct (float_param q "lat"), (float_param q "lng").
Qed.

(** A call without [km] is read as one with [km] equal to "1.0". *)
Lemma AmenitiesWithinRadius_default_km db q :
  q !! "km" = None →
  AmenitiesWithinRadius_get db q = AmenitiesWithinRadius_get db (<["km" := "1.0"]> q).
Proof.
  intros Hkm. unfold AmenitiesWithinRadius_get, float_param.
  by rewrite Hkm, lookup_insert_eq, !lookup_insert_ne.
Qed.

(** The radius is not compared with zero: whatever [km] reads as, the
    answer is the rows the database selects. *)
Lemma AmenitiesWithinRadius_get_valid db q lat lng km :
  float_param q "lat" = Some lat →
  float_param q "lng" = Some lng →
  float_of_str (default "1.0" (q !! "km")) = Some km →
  AmenitiesWithinRadius_get db q =
    Ok (filter (λ a, distance_lte (location a) {| x := lng; y := lat |} km = true)
          (amenities db)).
Proof.
  intros Hlat Hlng Hkm. unfold AmenitiesWithinRadius_get. by rewrite Hlat, Hlng, Hkm.
Qed.

(** C1. NearestAmenities does not restrict its rows to the Area that
    [area_id] names: when the table has no more rows than the limit, a stored
    amenity is answered also when its location is not within the boundary of
    that Area. *)
Theorem NearestAmenities_answers_outside_area db q lat lng limit area_id pk area i a :
  float_param q "lat" = Some lat →
  float_param q "lng" = Some lng →
  int_of_str (default "10" (q !! "limit")) = Some limit →
  (1 ≤ limit)%Z →
  q !! "area_id" = Some area_id →
  int_of_str area_id = Some pk →
  areas db !! pk = Some area →
  (length (amenities db) ≤ Z.to_nat (Z.min limit 100))%nat →
  amenities db !! i = Some a →
  within (location a) (boundary area) = false →
  ∃ rows, NearestAmenities_get db q = Ok rows ∧ a ∈ rows.
Proof.
  intros Hlat Hlng Hlimit Hpos _ _ _ Hfits Ha _.
  rewrite (NearestAmenities_get_valid db q lat lng limit) by (done || lia).
  eexists. split; [done|].
  rewrite take_ge
    by (by rewrite (Permutation_length (order_by_distance_perm _ _))).
  rewrite order_by_distance_perm. by eapply list_elem_of_lookup_2.
Qed.

(** C3. AmenitiesWithinRadius does not restrict its rows to the Area that
    [area_id] names: a stored amenity within the radius is answered also
    when its location is not within the boundary of that Area. *)
Theorem AmenitiesWithinRadius_answers_outside_area db q lat lng km area_id pk area i a :
  float_param q "lat" = Some lat →
  float_param q "lng" = Some lng →
  float_of_str (default "1.0" (q !! "km")) = Some km →
  q !! "area_id" = Some area_id →
  int_of_str area_id = Some pk →
  areas db !! pk = Some area →
  amenities db !! i = Some a →
  distance_lte (location a) {| x := lng; y := lat |} km = true →
  within (location a) (boundary area) = false →
  ∃ rows, AmenitiesWithinRadius_get db q = Ok rows ∧ a ∈ rows.
Proof.
  intros Hlat Hlng Hkm _ _ _ Ha Hnear _.
  rewrite (AmenitiesWithinRadius_get_valid db q lat lng km) by done.
  eexists. split; [done|].
  apply list_elem_of_filter. split; [done|]. by eapply list_elem_of_lookup_2.
Qed.

(** AmenitiesWithinArea and RoutesIntersectingArea fail with a validation
    error, and answer no rows, when [area_id] is missing or empty and when
    it is an integer that is the key of no Area. *)
Theorem area_views_reject_missing_or_unknown_area db q :
  (q !! "area_id" = None
   ∨ q !! "area_id" = Some ""
   ∨ ∃ area_id pk, q !! "area_id" = Some area_id
       ∧ int_of_str area_id = Some pk ∧ areas db !! pk = None) →
  (∃ detail, AmenitiesWithinArea_get db q = ValidationError detail)
  ∧ (∃ detail, RoutesIntersectingArea_get db q = ValidationError detail).
Proof.
  intros Hbad. unfold AmenitiesWithinArea_get, RoutesIntersectingArea_get.
  destruct Hbad as [-> | [-> | (area_id & pk & -> & Hpk & Hnone)]]; simpl; eauto.
  destruct (String.eqb area_id ""); eauto.
  unfold Area_objects_get. rewrite Hpk, Hnone. eauto.
Qed.

(** C6. An [area_id] that is not empty and does not read as an integer, so
    that no Area has it as its id, is not rejected with a validation error by
    AmenitiesWithinArea and RoutesIntersectingArea: the views catch
    [Area.DoesNotExist] only, and the [ValueError] of the conversion of the
    key leaves them. *)
Theorem area_views_bad_key db q area_id :
  q !! "area_id" = Some area_id →
  area_id ≠ "" →
  int_of_str area_id = None →
  AmenitiesWithinArea_get db q = Unhandled ValueError
  ∧ RoutesIntersectingArea_get db q = Unhandled ValueError.
Proof.
  intros Hq Hne Hkey. unfold AmenitiesWithinArea_get, RoutesIntersectingArea_get.
  rewrite Hq. simpl. apply String.eqb_neq in Hne.
  unfold Area_objects_get. by rewrite Hne, Hkey.
Qed.

(** C7. For an existing Area, AmenitiesWithinArea answers exactly the
    stored amenities whose location is within the boundary of the Area. *)
Theorem AmenitiesWithinArea_exact db q area_id pk area :
  q !! "area_id" = Some area_id →
  area_id ≠ "" →
  int_of_str area_id = Some pk →
  areas db !! pk = Some area →
  ∃ rows,
    AmenitiesWithinArea_get db q = Ok rows
    ∧ ∀ a, a ∈ rows ↔ a ∈ amenities db ∧ within (location a) (boundary area) = true.
Proof.
  intros Hq Hne Hpk Harea. unfold AmenitiesWithinArea_get, Area_objects_get.
  rewrite Hq. simpl. apply String.eqb_neq in Hne. rewrite Hne, Hpk, Harea.
  eexists; split; [done|]. intros a. rewrite list_elem_of_filter. tauto.
Qed.

End ViewProperties.

(** * Properties of the importer *)

Section ImporterProperties.
Context `{PyBuiltins, Gis}.

(** ** Upserts *)

Lemma upserts_app ups1 ups2 table :
  upserts (ups1 ++ ups2) table = upserts ups2 (upserts ups1 table).
Proof. apply foldl_app. Qed.

Lemma upserts_union ups table :
  upserts ups table = list_to_map (reverse ups) ∪ table.
Proof.
  revert table. induction ups as [|[k v] ups IH]; intros table; simpl.
  - by rewrite (left_id_L ∅ (∪)).
  - unfold upserts in *. simpl. rewrite IH, reverse_cons, list_to_map_app. simpl.
    rewrite insert_empty, <-(assoc_L (∪)). by rewrite <-insert_union_singleton_l.
Qed.

(** Upserting the same rows again changes nothing. *)
Lemma upserts_idemp ups table : upserts ups (upserts ups table) = upserts ups table.
Proof.
  rewrite !upserts_union, (assoc_L (∪)). by rewrite (idemp_L (∪)).
Qed.

(** ** Blindness to the Route table *)

Lemma table_blind_ret {A} (a : A) : table_blind (mret a).
Proof. intros s1 s2 Hs. by exists []. Qed.

Lemma table_blind_raise {A} e : table_blind (raise (A:=A) e).
Proof. intros s1 s2 Hs. by exists []. Qed.

Lemma table_blind_lift {A} (r : exn + A) : table_blind (lift r).
Proof. intros s1 s2 Hs. by exists []. Qed.

Lemma table_blind_write line : table_blind (write line).
Proof. intros s1 s2 Hs. by exists []. Qed.

Lemma table_blind_skip_one : table_blind skip_one.
Proof. intros s1 s2 [Hi Hk]. exists []. unfold same_counters. simpl. by rewrite Hk. Qed.

Lemma table_blind_clear_counters : table_blind clear_counters.
Proof. intros s1 s2 Hs. by exists []. Qed.

Lemma table_blind_read_imported : table_blind (read imported).
Proof. intros s1 s2 [Hi Hk]. exists []. simpl. by rewrite Hi. Qed.

Lemma table_blind_read_skipped : table_blind (read skipped).
Proof. intros s1 s2 [Hi Hk]. exists []. simpl. by rewrite Hk. Qed.

Lemma table_blind_bind {A B} (m : M A) (f : A → M B) :
  table_blind m → (∀ a, table_blind (f a)) → table_blind (m ≫= f).
Proof.
  intros Hm Hf s1 s2 Hs.
  destruct (Hm s1 s2 Hs) as (ups1 & Hv & Hc & Hr1 & Hr2).
  unfold mbind, M_bind.
  destruct (m s1) as [[e1|a1] s1'], (m s2) as [[e2|a2] s2']; simpl in *; simplify_eq.
  - by exists ups1.
  - destruct (Hf a2 s1' s2' Hc) as (ups2 & Hv2 & Hc2 & Hr1' & Hr2').
    exists (ups1 ++ ups2)%list. rewrite !upserts_app, <-Hr1, <-Hr2. done.
Qed.

(** The upsert with its report: which of "Created" and "Updated" is
    written depends on the table, the rest does not. *)
Lemma table_blind_upsert name line :
  table_blind (created ← update_or_create name line;
               count_imported;;
               write ((if created : bool then "Created" else "Updated")
                      +:+ " route: " +:+ name)).
Proof.
  intros s1 s2 [Hi Hk]. exists [(name, line)].
  unfold same_counters. simpl. by rewrite Hi, Hk.
Qed.

Lemma table_blind_for_each {A} (body : nat → A → M unit) index items :
  (∀ i item, table_blind (body i item)) → table_blind (for_each body index items).
Proof.
  intros Hbody. revert index.
  induction items as [|item items IH]; intros index; simpl.
  - apply table_blind_ret.
  - apply table_blind_bind; [apply Hbody | intros _; apply IH].
Qed.

Create HintDb blind.
#[local] Hint Resolve table_blind_ret table_blind_raise table_blind_lift
  table_blind_write table_blind_skip_one table_blind_clear_counters
  table_blind_read_imported table_blind_read_skipped table_blind_upsert : blind.

Ltac blind_step :=
  first
    [ solve [auto with blind]
    | apply table_blind_for_each; intros ? ?
    | apply table_blind_bind; [|intros ?]
    | match goal with |- table_blind (if ?b then _ else _) => destruct b end
    | match goal with |- table_blind (match ?x with _ => _ end) => destruct x end ].

Lemma table_blind_import_segment file index base_name nsegments segment_idx segment :
  table_blind (import_segment file index base_name nsegments segment_idx segment).
Proof. unfold import_segment. repeat blind_step. Qed.
#[local] Hint Resolve table_blind_import_segment : blind.

Lemma table_blind_import_feature file index feature :
  table_blind (import_feature file index feature).
Proof. unfold import_feature. repeat blind_step. Qed.
#[local] Hint Resolve table_blind_import_feature : blind.

Lemma table_blind_import_file file : table_blind (import_file file).
Proof. unfold import_file. repeat blind_step. Qed.

#[local] Hint Resolve table_blind_import_file : blind.

(** Two runs of the command end with the same Route table when they start
    from the same table, or from any two tables after a reset. *)
Lemma run_routes reset files table1 table2 :
  ∃ ups,
    routes (run reset files table1).2
      = upserts ups (if reset && negb (bool_decide (files = [])) then ∅ else table1)
    ∧ routes (run reset files table2).2
      = upserts ups (if reset && negb (bool_decide (files = [])) then ∅ else table2).
Proof.
  unfold run, handle. case_bool_decide as Hfiles.
  { exists []. rewrite andb_false_r. done. }
  rewrite andb_true_r.
  match goal with
  | |- context [ mbind ?k ?m ] =>
      assert (Hbody : table_blind (k tt)) by (repeat blind_step);
      generalize dependent k
  end.
  intros k Hbody. unfold mbind at 1 3, M_bind. destruct reset; simpl.
  - edestruct (Hbody
      {| routes := ∅; imported := 0; skipped := 0;
         stdout := ["Deleted " +:+ pretty (size table1) +:+ " existing routes."] |}
      {| routes := ∅; imported := 0; skipped := 0;
         stdout := ["Deleted " +:+ pretty (size table2) +:+ " existing routes."] |})
      as (ups & _ & _ & H1 & H2); [done|].
    exists ups. done.
  - edestruct (Hbody
      {| routes := table1; imported := 0; skipped := 0; stdout := [] |}
      {| routes := table2; imported := 0; skipped := 0; stdout := [] |})
      as (ups & _ & _ & H1 & H2); [done|].
    exists ups. done.
Qed.

(** C8. Running the import of the same files a second time leaves the
    number of Route rows of the first run, and the very same rows: a route
    is upserted under its final name, so the second run writes again the
    rows of the first. *)
Theorem import_twice_same_route_count reset files table :
  let once := (run reset files table).2 in
  let twice := (run reset files (routes once)).2 in
  size (routes twice) = size (routes once) ∧ routes twice = routes once.
Proof.
  cbv zeta.
  destruct (run_routes reset files table (routes (run reset files table).2))
    as (ups & Hfirst & Hsecond).
  assert (Hsame : routes (run reset files (routes (run reset files table).2)).2
                  = routes (run reset files table).2).
  { rewrite Hsecond. destruct (reset && negb (bool_decide (files = []))); [done|].
    rewrite Hfirst. apply upserts_idemp. }
  by rewrite Hsame.
Qed.

(** ** The loop over the segments of a feature *)

Lemma import_segment_step file index base_name nsegments segment_idx segment s :
  import_segment file index base_name nsegments segment_idx segment s =
  match py_len segment with
  | inl e => (inl e, s)
  | inr n =>
      if bool_decide (n < 2)%nat
      then (inr tt, {| routes := routes s; imported := imported s;
                       skipped := S (skipped s); stdout := stdout s |})
      else
        match LineString_init segment with
        | GeosTypeError msg =>
            (inl (CommandError (file_name file +:+ " feature " +:+ pretty index +:+
                                " segment " +:+ pretty segment_idx +:+ ": " +:+ msg)), s)
        | GeosFailure => (inl GeosError, s)
        | GeosOk line =>
            let name := route_name base_name nsegments segment_idx in
            (inr tt,
             {| routes := <[name := line]> (routes s); imported := S (imported s);
                skipped := skipped s;
                stdout := stdout s ++
                  [(if bool_decide (routes s !! name = None) then "Created" else "Updated")
                   +:+ " route: " +:+ name] |})
        end
  end.
Proof.
  unfold import_segment, mbind, M_bind, lift. destruct (py_len segment) as [e|n]; [done|].
  case_bool_decide; [done|]. by destruct (LineString_init segment).
Qed.

Lemma for_each_cons {A} (body : nat → A → M unit) index item rest s :
  for_each body index (item :: rest) s =
  match body index item s with
  | (inr _, s') => for_each body (S index) rest s'
  | (inl e, s') => (inl e, s')
  end.
Proof. done. Qed.


(** The loop counts a skip for each segment it passes that is not long. *)
Lemma import_segments_skipped file index base_name nsegments segments : ∀ first s,
  Forall (λ seg, is_long seg = true) segments →
  skipped (for_each (import_segment file index base_name nsegments) first segments s).2
  = skipped s.
Proof.
  induction segments as [|seg rest IH]; intros first s Hlong; [done|].
  apply Forall_cons in Hlong as [Hseg Hlong].
  rewrite for_each_cons, import_segment_step. unfold is_long in Hseg.
  destruct (py_len seg) as [e|n]; [done|].
  apply bool_decide_eq_true in Hseg. rewrite bool_decide_false by lia.
  destruct (LineString_init seg); simpl; [|done..].
  by rewrite IH.
Qed.

(** ** One feature *)

(** A feature without coordinates is skipped. *)
Lemma import_feature_no_coordinates file index feature base_name geom_type coordinates s :
  feature_reads file index feature base_name geom_type coordinates →
  truthy coordinates = false →
  import_feature file index feature s = skip_one s.
Proof.
  intros (geometry & props & Hg & Htg & Hp & Hb & Ht & Hc) Htc.
  unfold import_feature, mbind, M_bind, lift.
  rewrite Hg, Htg. simpl. rewrite Hp, Hb, Ht, Hc, Htc. done.
Qed.

(** A feature with coordinates is imported segment by segment, or skipped
    when the normalisation leaves no segment. *)
Lemma import_feature_segments file index feature base_name geom_type coordinates
    segments s :
  feature_reads file index feature base_name geom_type coordinates →
  truthy coordinates = true →
  normalize geom_type coordinates = inr (Some segments) →
  import_feature file index feature s =
    if bool_decide (segments = []) then skip_one s
    else for_each (import_segment file index base_name (length segments)) 1 segments s.
Proof.
  intros (geometry & props & Hg & Htg & Hp & Hb & Ht & Hc) Htc Hn.
  unfold import_feature, mbind, M_bind, lift.
  rewrite Hg, Htg. simpl. rewrite Hp, Hb, Ht, Hc, Htc. simpl. rewrite Hn.
  by case_bool_decide.
Qed.

Lemma keep_long_filter members segments :
  keep_long members = inr segments →
  segments = filter (λ c, is_long c = true) members
  ∧ Forall (λ seg, is_long seg = true) segments.
Proof.
  revert segments. induction members as [|c rest IH]; intros segments; simpl.
  { intros [= <-]. by split. }
  unfold mbind, exn_bind, is_long in *.
  destruct (py_len c) as [e|n] eqn:Hlen; [done|].
  destruct (keep_long rest) as [e|kept]; [done|].
  destruct (IH kept eq_refl) as [-> Hall]. intros [= <-].
  rewrite filter_cons, Hlen. case_bool_decide.
  - rewrite decide_True by done. split; [done|]. constructor; [|done].
    rewrite Hlen. by rewrite bool_decide_true.
  - rewrite decide_False by done. done.
Qed.


Lemma normalize_multilinestring members :
  normalize (JStr "MultiLineString") (JArr members) =
  match keep_long members with
  | inr segments => inr (Some segments)
  | inl e => inl e
  end.
Proof. done. Qed.

(** C10 (amended). For a MultiLineString feature the segments are the
    members with two coordinate pairs or more; the other members are dropped
    without a count. The feature adds one to the skip counter when no member
    is left, and nothing otherwise. *)
Theorem multilinestring_skipped file index feature base_name members segments s :
  feature_reads file index feature base_name (JStr "MultiLineString") (JArr members) →
  keep_long members = inr segments →
  segments = filter (λ c, is_long c = true) members
  ∧ skipped (import_feature file index feature s).2
    = (skipped s + if bool_decide (segments = []) then 1 else 0)%nat.
Proof.
  intros Hreads Hkeep.
  destruct (keep_long_filter _ _ Hkeep) as [Hfilter Hlong]. split; [done|].
  destruct members as [|c rest].
  { injection Hkeep as <-.
    rewrite (import_feature_no_coordinates _ _ _ _ _ _ _ Hreads) by done.
    simpl. lia. }
  rewrite (import_feature_segments _ _ _ _ _ _ segments _ Hreads).
  - case_bool_decide; simpl; [lia|].
    rewrite import_segments_skipped by done. lia.
  - done.
  - by rewrite normalize_multilinestring, Hkeep.
Qed.

End ImporterProperties.

(** * The tests of [geo/tests.py] and other concrete runs *)

Section Examples.
#[local] Existing Instance Planar.builtins.
#[local] Existing Instance Planar.gis.
Import Fixture.

(** ** Views *)

(** [test_amenities_within_area] *)
Example within_test_area :
  AmenitiesWithinArea_get db within_area = Ok [cafe; gym].
Proof. by vm_compute. Qed.

(** [test_routes_intersecting_area] *)
Example routes_in_test_area :
  RoutesIntersectingArea_get db within_area = Ok [("River Walk", river_walk)].
Proof. by vm_compute. Qed.

(** [test_nearest_amenities_returns_sorted_results] *)
Example nearest_two_rows :
  NearestAmenities_get db nearest_two = Ok [cafe; gym].
Proof. by vm_compute. Qed.

(** [test_nearest_amenities_limit_validation] *)
Example nearest_limit_text :
  NearestAmenities_get db nearest_bad_limit =
    ValidationError "Query param 'limit' must be a positive integer.".
Proof. by vm_compute. Qed.

(** [test_nearest_respects_area_filter] asks for the five nearest amenities
    inside the test area and expects "Far Cafe" to be left out. The view
    answers all three amenities. *)
Example nearest_in_test_area :
  NearestAmenities_get db nearest_in_area = Ok [cafe; gym; outside]
  ∧ within (location outside) (boundary test_area) = false.
Proof. by vm_compute. Qed.

Lemma NearestAmenities_answers_outside_area_witness :
  ∃ rows, NearestAmenities_get db nearest_in_area = Ok rows ∧ outside ∈ rows.
Proof.
  apply (NearestAmenities_answers_outside_area db nearest_in_area
           (Finite 53.35) (Finite (-6.26)) 5 "1" 1 test_area 2 outside).
  - vm_compute; reflexivity.
  - vm_compute; reflexivity.
  - vm_compute; reflexivity.
  - lia.
  - vm_compute; reflexivity.
  - vm_compute; reflexivity.
  - vm_compute; reflexivity.
  - vm_compute; lia.
  - vm_compute; reflexivity.
  - vm_compute; reflexivity.
Defined.

(** [test_radius_respects_area_filter] asks for the amenities within 5 km
    inside the test area and expects "Far Cafe" to be left out. The view
    answers all three amenities. *)
Example radius_in_test_area :
  AmenitiesWithinRadius_get db radius_in_area = Ok [cafe; gym; outside]
  ∧ within (location outside) (boundary test_area) = false.
Proof. by vm_compute. Qed.

Lemma AmenitiesWithinRadius_answers_outside_area_witness :
  ∃ rows, AmenitiesWithinRadius_get db radius_in_area = Ok rows ∧ outside ∈ rows.
Proof.
  apply (AmenitiesWithinRadius_answers_outside_area db radius_in_area
           (Finite 53.35) (Finite (-6.26)) (Finite 5) "1" 1 test_area 2 outside).
  - vm_compute; reflexivity.
  - vm_compute; reflexivity.
  - vm_compute; reflexivity.
  - vm_compute; reflexivity.
  - vm_compute; reflexivity.
  - vm_compute; reflexivity.
  - vm_compute; reflexivity.
  - vm_compute; reflexivity.
  - vm_compute; reflexivity.
Defined.

(** [test_radius_validation_requires_positive_km] expects a rejection; the
    view answers an empty list of rows. *)
Example radius_negative_km :
  AmenitiesWithinRadius_get db radius_negative = Ok [].
Proof. by vm_compute. Qed.

(** C2, as stated, fails on a call without [km]: the radius defaults to
    1.0 and rows are answered. *)
Lemma AmenitiesWithinRadius_without_km :
  radius_default !! "km" = None
  ∧ AmenitiesWithinRadius_get db radius_default = Ok [cafe].
Proof. by vm_compute. Qed.

Lemma AmenitiesWithinRadius_bad_params_witness :
  AmenitiesWithinRadius_get db radius_bad_km =
    ValidationError "Params 'lat','lng','km' are required floats.".
Proof.
  apply (AmenitiesWithinRadius_bad_params db radius_bad_km).
  right. right. exists "abc". split; vm_compute; reflexivity.
Defined.

Lemma NearestAmenities_limit_sorted_witness :
  ∃ rows,
    NearestAmenities_get db nearest_two = Ok rows
    ∧ StronglySorted (by_distance (pt (-6.26) 53.35)) rows
    ∧ (length rows ≤ 100)%nat
    ∧ ((2 ≤ 100)%Z → (length rows ≤ Z.to_nat 2)%nat)
    ∧ length rows = (Z.to_nat (Z.min 2 100) `min` length (amenities db))%nat
    ∧ rows ⊆+ amenities db.
Proof.
  apply (NearestAmenities_limit_sorted db nearest_two (Finite 53.35) (Finite (-6.26)) 2).
  - vm_compute; reflexivity.
  - vm_compute; reflexivity.
  - vm_compute; reflexivity.
  - lia.
Defined.

(** C5, as stated, fails on a call that has a bad limit and no origin: the
    error is the one about [lat] and [lng], whose text does not contain
    "limit". *)
Lemma NearestAmenities_bad_limit_without_origin :
  int_of_str (default "10" (bad_limit_no_origin !! "limit")) = None
  ∧ NearestAmenities_get db bad_limit_no_origin =
      ValidationError "Query params 'lat' and 'lng' are required floats."
  ∧ contains "limit" "Query params 'lat' and 'lng' are required floats." = false.
Proof. by vm_compute. Qed.

Lemma NearestAmenities_bad_limit_witness :
  ∃ detail,
    NearestAmenities_get db nearest_bad_limit = ValidationError detail
    ∧ (is_Some (float_param nearest_bad_limit "lat") →
       is_Some (float_param nearest_bad_limit "lng") →
       contains "limit" detail = true).
Proof.
  apply (NearestAmenities_bad_limit db nearest_bad_limit).
  left. vm_compute. reflexivity.
Defined.

Lemma area_views_reject_missing_or_unknown_area_witness :
  (∃ detail, AmenitiesWithinArea_get db within_unknown_area = ValidationError detail)
  ∧ (∃ detail, RoutesIntersectingArea_get db within_unknown_area = ValidationError detail).
Proof.
  apply (area_views_reject_missing_or_unknown_area db within_unknown_area).
  right. right. exists "7", 7%Z. repeat split; vm_compute; reflexivity.
Defined.

Lemma area_views_bad_key_witness :
  AmenitiesWithinArea_get db within_bad_area = Unhandled ValueError
  ∧ RoutesIntersectingArea_get db within_bad_area = Unhandled ValueError.
Proof.
  apply (area_views_bad_key db within_bad_area "abc").
  - vm_compute; reflexivity.
  - discriminate.
  - vm_compute; reflexivity.
Defined.

Lemma AmenitiesWithinArea_exact_witness :
  ∃ rows,
    AmenitiesWithinArea_get db within_area = Ok rows
    ∧ ∀ a, a ∈ rows ↔ a ∈ amenities db ∧ within (location a) (boundary test_area) = true.
Proof.
  apply (AmenitiesWithinArea_exact db within_area "1" 1%Z test_area).
  - vm_compute; reflexivity.
  - discriminate.
  - vm_compute; reflexivity.
  - vm_compute; reflexivity.
Defined.

(** ** Importer *)

(** A MultiLineString with three segments of two points gives three routes,
    named after their position. *)
Example three_segments_routes :
  (run false [three_segments] ∅).1 = inr tt
  ∧ routes (run false [three_segments] ∅).2 =
      list_to_map [("Canal (Segment 1)", long_line); ("Canal (Segment 2)", long_line);
                   ("Canal (Segment 3)", long_line)]
  ∧ stdout (run false [three_segments] ∅).2 =
      ["Created route: Canal (Segment 1)"; "Created route: Canal (Segment 2)";
       "Created route: Canal (Segment 3)"; "Imported or updated 3 route segments."].
Proof. by vm_compute. Qed.

(** The second run of the same file updates the three routes. *)
Example three_segments_again :
  stdout (run false [three_segments] (routes (run false [three_segments] ∅).2)).2 =
      ["Updated route: Canal (Segment 1)"; "Updated route: Canal (Segment 2)";
       "Updated route: Canal (Segment 3)"; "Imported or updated 3 route segments."].
Proof. by vm_compute. Qed.

(** Names are generated from the file stem; a LineString of one point and an
    unsupported geometry are skipped. *)
Example unnamed_features :
  (run true [unnamed] {[ "Old" := long_line ]}).1 = inr tt
  ∧ routes (run true [unnamed] {[ "Old" := long_line ]}).2 =
      {[ "Routes Phoenix Park Feature 1" := long_line ]}
  ∧ stdout (run true [unnamed] {[ "Old" := long_line ]}).2 =
      ["Deleted 1 existing routes.";
       "Created route: Routes Phoenix Park Feature 1";
       "routes_phoenix_park.geojson feature 3: unsupported geometry Polygon, skipping.";
       "Imported or updated 1 route segments; skipped 2."].
Proof. by vm_compute. Qed.


(** C10, as stated, fails on a MultiLineString with one member of a single
    point next to a member of two points: the short member is one that the
    claim counts, the run reports no skip. *)
Lemma short_member_not_counted :
  normalize (JStr "MultiLineString") mixed_coordinates = inr (Some [long_member])
  ∧ length (filter (λ c, is_long c = false) [long_member; short_member]) = 1%nat
  ∧ skipped (import_feature one_short_member 1 mixed start).2 = 0%nat
  ∧ skipped (run false [one_short_member] ∅).2 = 0%nat
  ∧ stdout (run false [one_short_member] ∅).2 =
      ["Created route: Mixed"; "Imported or updated 1 route segments."].
Proof. by vm_compute. Qed.

(** Two members of a single point each count as one skip, that of the
    feature. *)
Example short_members_count_once :
  skipped (run false [all_short_members] ∅).2 = 1%nat
  ∧ stdout (run false [all_short_members] ∅).2 =
      ["Created route: Quay"; "Imported or updated 1 route segments; skipped 1."].
Proof. by vm_compute. Qed.

Lemma multilinestring_skipped_witness :
  [long_member] = filter (λ c, is_long c = true) [long_member; short_member]
  ∧ skipped (import_feature one_short_member 1 mixed start).2
    = (skipped start + if bool_decide ([long_member] = []) then 1 else 0)%nat.
Proof.
  apply (multilinestring_skipped one_short_member 1 mixed "Mixed"
           [long_member; short_member] [long_member] start).
  - exists (geometry "MultiLineString" mixed_coordinates), (named "Mixed").
    repeat split; vm_compute; reflexivity.
  - vm_compute; reflexivity.
Defined.

End Examples.

(** * Further properties of the views *)

Section ViewCoverage.
Context `{PyBuiltins, Gis}.

(** X1. The rows NearestAmenities answers are nearest ones: together with
    the rows left out they make up the table, and no row answered is farther
    from the origin than a row left out. *)
Theorem NearestAmenities_rows_are_nearest db q lat lng limit :
  float_param q "lat" = Some lat →
  float_param q "lng" = Some lng →
  int_of_str (default "10" (q !! "limit")) = Some limit →
  (1 ≤ limit)%Z →
  ∃ rows rest,
    NearestAmenities_get db q = Ok rows
    ∧ rows ++ rest ≡ₚ amenities db
    ∧ ∀ a b, a ∈ rows → b ∈ rest →
        (Distance (location a) {| x := lng; y := lat |}
         <= Distance (location b) {| x := lng; y := lat |})%Q.
Proof.
  intros Hlat Hlng Hlimit Hpos.
  rewrite (NearestAmenities_get_valid db q lat lng limit) by (done || lia).
  set (sorted := order_by_distance {| x := lng; y := lat |} (amenities db)).
  set (n := Z.to_nat (Z.min limit 100)).
  exists (take n sorted), (drop n sorted). split; [done|]. split.
  - rewrite take_drop. apply order_by_distance_perm.
  - intros a b Ha Hb.
    apply (StronglySorted_app_1_elem_of (by_distance {| x := lng; y := lat |})
             (take n sorted) (drop n sorted)); [|done..].
    rewrite take_drop. apply order_by_distance_sorted.
Qed.

(** Two orders by distance of the same rows are the same order when no two
    of the rows are at the same distance. *)
Lemma order_by_distance_unique origin rows ordered :
  (∀ a b, a ∈ rows → b ∈ rows →
     (Distance (location a) origin == Distance (location b) origin)%Q → a = b) →
  ordered ≡ₚ rows →
  StronglySorted (by_distance origin) ordered →
  ordered = order_by_distance origin rows.
Proof.
  intros Hdistinct Hperm Hsorted.
  apply (StronglySorted_unique_strong (by_distance origin)).
  - intros a b Ha Hb Hab Hba. apply Hdistinct.
    + by rewrite <-Hperm.
    + by rewrite <-(order_by_distance_perm origin rows).
    + by apply Qle_antisym.
  - done.
  - apply order_by_distance_sorted.
  - by rewrite order_by_distance_perm.
Qed.

(** X2. When no two stored amenities are at the same distance from the
    origin, asking NearestAmenities for more rows at that origin extends the
    answer: the rows of the smaller limit are the first rows of the larger
    one. Both answers are the first rows of the one order by distance there
    is, in whatever order the database holds the table. *)
Theorem NearestAmenities_limit_prefix db q1 q2 lat lng limit1 limit2 :
  float_param q1 "lat" = Some lat → float_param q1 "lng" = Some lng →
  float_param q2 "lat" = Some lat → float_param q2 "lng" = Some lng →
  int_of_str (default "10" (q1 !! "limit")) = Some limit1 →
  int_of_str (default "10" (q2 !! "limit")) = Some limit2 →
  (1 ≤ limit1 ≤ limit2)%Z →
  (∀ a b, a ∈ amenities db → b ∈ amenities db →
     (Distance (location a) {| x := lng; y := lat |}
      == Distance (location b) {| x := lng; y := lat |})%Q → a = b) →
  ∃ rows1 rows2,
    NearestAmenities_get db q1 = Ok rows1
    ∧ NearestAmenities_get db q2 = Ok rows2
    ∧ rows1 `prefix_of` rows2
    ∧ ∀ ordered,
        ordered ≡ₚ amenities db →
        StronglySorted (by_distance {| x := lng; y := lat |}) ordered →
        rows1 = take (Z.to_nat (Z.min limit1 100)) ordered
        ∧ rows2 = take (Z.to_nat (Z.min limit2 100)) ordered.
Proof.
  intros Hlat1 Hlng1 Hlat2 Hlng2 Hlimit1 Hlimit2 Hle Hdistinct.
  rewrite (NearestAmenities_get_valid db q1 lat lng limit1) by (done || lia).
  rewrite (NearestAmenities_get_valid db q2 lat lng limit2) by (done || lia).
  eexists _, _. split; [done|]. split; [done|]. split.
  - replace (Z.to_nat (Z.min limit1 100))
      with (Z.to_nat (Z.min limit1 100) `min` Z.to_nat (Z.min limit2 100))%nat by lia.
    rewrite <-take_take. apply prefix_take.
  - intros ordered Hperm Hsorted.
    by rewrite (order_by_distance_unique _ _ ordered Hdistinct Hperm Hsorted).
Qed.

(** X3. When the table has no more rows than the limit allows,
    NearestAmenities answers every amenity exactly once. *)
Theorem NearestAmenities_all_rows db q lat lng limit :
  float_param q "lat" = Some lat →
  float_param q "lng" = Some lng →
  int_of_str (default "10" (q !! "limit")) = Some limit →
  (1 ≤ limit)%Z →
  (length (amenities db) ≤ Z.to_nat (Z.min limit 100))%nat →
  ∃ rows, NearestAmenities_get db q = Ok rows ∧ rows ≡ₚ amenities db.
Proof.
  intros Hlat Hlng Hlimit Hpos Hfits.
  rewrite (NearestAmenities_get_valid db q lat lng limit) by (done || lia).
  eexists. split; [done|].
  rewrite take_ge by (by rewrite (Permutation_length (order_by_distance_perm _ _))).
  apply order_by_distance_perm.
Qed.

(** X4. NearestAmenities answers rows exactly when [lat] and [lng] read as
    floats and the limit, or its default "10", reads as an integer above
    zero; in every other case it raises a validation error, and it never
    lets another exception through. *)
Theorem NearestAmenities_answers_iff db q :
  ((∃ rows, NearestAmenities_get db q = Ok rows) ↔
   is_Some (float_param q "lat") ∧ is_Some (float_param q "lng")
   ∧ ∃ limit, int_of_str (default "10" (q !! "limit")) = Some limit ∧ (0 < limit)%Z)
  ∧ ((∃ detail, NearestAmenities_get db q = ValidationError detail)
     ∨ ∃ rows, NearestAmenities_get db q = Ok rows).
Proof.
  unfold NearestAmenities_get.
  destruct (float_param q "lat") as [lat|], (float_param q "lng") as [lng|];
    try (split; [split; [intros [? ?]; done | intros (Ha & Hb & _);
              by (destruct Ha || destruct Hb)] | eauto]).
  destruct (int_of_str (default "10" (q !! "limit"))) as [limit|].
  - case_bool_decide.
    + split; [|eauto]. split; [intros [? ?]; done|].
      intros (_ & _ & limit' & [= <-] & ?). lia.
    + split; [|eauto]. split; [|eauto]. intros _. repeat split; eauto.
      exists limit. split; [done|lia].
  - split; [|eauto]. split; [intros [? ?]; done|]. by intros (_ & _ & ? & ? & _).
Qed.

(** A call of NearestAmenities without [limit] is answered as one with
    [limit] equal to "10". *)
Lemma NearestAmenities_default_limit db q :
  q !! "limit" = None →
  NearestAmenities_get db q = NearestAmenities_get db (<["limit" := "10"]> q).
Proof.
  intros Hlimit. unfold NearestAmenities_get, float_param.
  by rewrite Hlimit, lookup_insert_eq, !lookup_insert_ne.
Qed.

(** X5. For readable [lat], [lng] and [km], of any sign, AmenitiesWithinRadius
    answers exactly the stored amenities that the database finds within the
    distance, none more often than it is stored. *)
Theorem AmenitiesWithinRadius_exact db q lat lng km :
  float_param q "lat" = Some lat →
  float_param q "lng" = Some lng →
  float_of_str (default "1.0" (q !! "km")) = Some km →
  ∃ rows,
    AmenitiesWithinRadius_get db q = Ok rows
    ∧ rows ⊆+ amenities db
    ∧ ∀ a, a ∈ rows ↔
        a ∈ amenities db ∧ distance_lte (location a) {| x := lng; y := lat |} km = true.
Proof.
  intros Hlat Hlng Hkm.
  rewrite (AmenitiesWithinRadius_get_valid db q lat lng km) by done.
  eexists. split; [done|]. split; [apply sublist_submseteq, sublist_filter|].
  intros a. rewrite list_elem_of_filter. tauto.
Qed.

(** X6. AmenitiesWithinRadius answers rows exactly when [lat] and [lng] read
    as floats and [km], or its default "1.0", reads as a float; otherwise it
    raises the validation error about the three parameters. *)
Theorem AmenitiesWithinRadius_answers_iff db q :
  ((∃ rows, AmenitiesWithinRadius_get db q = Ok rows) ↔
   is_Some (float_param q "lat") ∧ is_Some (float_param q "lng")
   ∧ is_Some (float_of_str (default "1.0" (q !! "km"))))
  ∧ ((∃ rows, AmenitiesWithinRadius_get db q = Ok rows)
     ∨ AmenitiesWithinRadius_get db q =
         ValidationError "Params 'lat','lng','km' are required floats.").
Proof.
  unfold AmenitiesWithinRadius_get.
  destruct (float_param q "lat") as [lat|], (float_param q "lng") as [lng|],
    (float_of_str (default "1.0" (q !! "km"))) as [km|];
    (split; [split; [intros [? ?]; try done; by repeat split
                    | intros (Ha & Hb & Hc);
                      try by (destruct Ha || destruct Hb || destruct Hc)]
            | eauto]); eauto.
Qed.

(** X7. For an existing Area, RoutesIntersectingArea answers exactly the
    stored routes whose path intersects the boundary of the Area, each route
    once. *)
Theorem RoutesIntersectingArea_exact db q area_id pk area :
  q !! "area_id" = Some area_id →
  area_id ≠ "" →
  int_of_str area_id = Some pk →
  areas db !! pk = Some area →
  ∃ rows,
    RoutesIntersectingArea_get db q = Ok rows
    ∧ NoDup rows.*1
    ∧ ∀ route_name path, (route_name, path) ∈ rows ↔
        route_table db !! route_name = Some path
        ∧ intersects path (boundary area) = true.
Proof.
  intros Hq Hne Hpk Harea. unfold RoutesIntersectingArea_get, Area_objects_get.
  rewrite Hq. simpl. apply String.eqb_neq in Hne. rewrite Hne, Hpk, Harea.
  eexists. split; [done|]. split.
  - eapply sublist_NoDup; [apply (NoDup_fst_map_to_list (route_table db))|].
    apply fmap_sublist, sublist_filter.
  - intros route_name path. rewrite list_elem_of_filter, elem_of_map_to_list.
    simpl. tauto.
Qed.

(** X8. The two views of an Area tell their rejections apart: a missing or
    empty [area_id] is reported as required, the key of no Area as not
    found; they answer rows only for the key of a stored Area. *)
Theorem area_views_rejections db q :
  (q !! "area_id" = None ∨ q !! "area_id" = Some "" →
   AmenitiesWithinArea_get db q = ValidationError "Query param 'area_id' is required."
   ∧ RoutesIntersectingArea_get db q = ValidationError "Query param 'area_id' is required.")
  ∧ (∀ area_id pk, q !! "area_id" = Some area_id → area_id ≠ "" →
       int_of_str area_id = Some pk → areas db !! pk = None →
       AmenitiesWithinArea_get db q = ValidationError "Area not found."
       ∧ RoutesIntersectingArea_get db q = ValidationError "Area not found.")
  ∧ (∀ rows, AmenitiesWithinArea_get db q = Ok rows →
       ∃ area_id pk, q !! "area_id" = Some area_id
         ∧ int_of_str area_id = Some pk ∧ is_Some (areas db !! pk))
  ∧ (∀ rows, RoutesIntersectingArea_get db q = Ok rows →
       ∃ area_id pk, q !! "area_id" = Some area_id
         ∧ int_of_str area_id = Some pk ∧ is_Some (areas db !! pk)).
Proof.
  unfold AmenitiesWithinArea_get, RoutesIntersectingArea_get, Area_objects_get.
  split; [|split; [|split]].
  - by intros [-> | ->].
  - intros area_id pk -> Hne Hpk Hnone. simpl.
    apply String.eqb_neq in Hne. by rewrite Hne, Hpk, Hnone.
  - intros rows. destruct (q !! "area_id") as [area_id|]; simpl; [|done].
    destruct (String.eqb area_id ""); [done|].
    destruct (int_of_str area_id) as [pk|] eqn:Hpk; [|done].
    destruct (areas db !! pk) eqn:Harea; [|done]. intros _. eauto 6.
  - intros rows. destruct (q !! "area_id") as [area_id|]; simpl; [|done].
    destruct (String.eqb area_id ""); [done|].
    destruct (int_of_str area_id) as [pk|] eqn:Hpk; [|done].
    destruct (areas db !! pk) eqn:Harea; [|done]. intros _. eauto 6.
Qed.

End ViewCoverage.

(** * Further properties of the importer *)

Section ImporterCoverage.
Context `{PyBuiltins, Gis}.

(** ** Upserts and the size of the table *)

Lemma upserts_snoc ups name line table :
  upserts (ups ++ [(name, line)]) table = <[name := line]> (upserts ups table).
Proof. by rewrite upserts_app. Qed.

Lemma upserts_dom ups (table : gmap string LineString) :
  dom (upserts ups table) = dom table ∪ list_to_set ups.*1.
Proof.
  revert table. induction ups as [|[name line] ups IH]; intros table; simpl.
  - by rewrite (right_id_L ∅ (∪)).
  - unfold upserts in *. simpl. rewrite IH, dom_insert_L.
    by rewrite (comm_L (∪) {[name]} (dom table)), (assoc_L (∪)).
Qed.

Lemma upserts_size ups (table : gmap string LineString) :
  (size table ≤ size (upserts ups table) ≤ size table + length ups)%nat.
Proof.
  revert table. induction ups as [|[name line] ups IH]; intros table; simpl.
  - unfold upserts. simpl. lia.
  - unfold upserts in *. simpl. specialize (IH (<[name := line]> table)).
    rewrite map_size_insert in IH. destruct (table !! name); simpl in IH; lia.
Qed.

Lemma upserts_non_empty ups (table : gmap string LineString) :
  ups ≠ [] → upserts ups table ≠ ∅.
Proof.
  destruct ups as [|u ups _] using rev_ind; [done|]. intros _.
  destruct u as [name line]. rewrite upserts_snoc. apply insert_non_empty.
Qed.

(** ** Accounting *)

Lemma accounted_ret {A} (a : A) : accounted (mret a).
Proof. intros s. exists [], []. simpl. by rewrite app_nil_r, Nat.add_0_r. Qed.

Lemma accounted_raise {A} e : accounted (raise (A:=A) e).
Proof. intros s. exists [], []. simpl. by rewrite app_nil_r, Nat.add_0_r. Qed.

Lemma accounted_lift {A} (r : exn + A) : accounted (lift r).
Proof. intros s. exists [], []. simpl. by rewrite app_nil_r, Nat.add_0_r. Qed.

Lemma accounted_write line : accounted (write line).
Proof. intros s. exists [], [line]. simpl. by rewrite Nat.add_0_r. Qed.

Lemma accounted_skip_one : accounted skip_one.
Proof.
  intros s. exists [], []. simpl. rewrite app_nil_r, Nat.add_0_r. auto with lia.
Qed.

Lemma accounted_upsert name line :
  accounted (created ← update_or_create name line;
             count_imported;;
             write ((if created : bool then "Created" else "Updated")
                    +:+ " route: " +:+ name)).
Proof.
  intros s. exists [(name, line)]. eexists [_]. simpl. repeat split; lia.
Qed.

Lemma accounted_bind {A B} (m : M A) (f : A → M B) :
  accounted m → (∀ a, accounted (f a)) → accounted (m ≫= f).
Proof.
  intros Hm Hf s. destruct (Hm s) as (ups1 & lines1 & Hr & Hi & Hk & Ho).
  unfold mbind, M_bind. destruct (m s) as [[e|a] s1]; simpl in *.
  - by exists ups1, lines1.
  - destruct (Hf a s1) as (ups2 & lines2 & Hr2 & Hi2 & Hk2 & Ho2).
    exists (ups1 ++ ups2)%list, (lines1 ++ lines2)%list.
    rewrite upserts_app, <-Hr, length_app, Hr2, Hi2, Hi, Ho2, Ho, (assoc_L (++)).
    repeat split; lia.
Qed.

Lemma accounted_for_each {A} (body : nat → A → M unit) index items :
  (∀ i item, accounted (body i item)) → accounted (for_each body index items).
Proof.
  intros Hbody. revert index.
  induction items as [|item items IH]; intros index; simpl.
  - apply accounted_ret.
  - apply accounted_bind; [apply Hbody | intros _; apply IH].
Qed.

Create HintDb accounts.
#[local] Hint Resolve accounted_ret accounted_raise accounted_lift accounted_write
  accounted_skip_one accounted_upsert : accounts.

Ltac account_step :=
  first
    [ solve [auto with accounts]
    | apply accounted_for_each; intros ? ?
    | apply accounted_bind; [|intros ?]
    | match goal with |- accounted (if ?b then _ else _) => destruct b end
    | match goal with |- accounted (match ?x with _ => _ end) => destruct x end ].

Lemma accounted_import_segment file index base_name nsegments segment_idx segment :
  accounted (import_segment file index base_name nsegments segment_idx segment).
Proof. unfold import_segment. repeat account_step. Qed.
#[local] Hint Resolve accounted_import_segment : accounts.

Lemma accounted_import_feature file index feature :
  accounted (import_feature file index feature).
Proof. unfold import_feature. repeat account_step. Qed.
#[local] Hint Resolve accounted_import_feature : accounts.

Lemma accounted_import_file file : accounted (import_file file).
Proof. unfold import_file. repeat account_step. Qed.
#[local] Hint Resolve accounted_import_file : accounts.

(** ** The run as a whole *)

(** The state in which the loop over the files starts. *)
Lemma run_unfold reset files table :
  files ≠ [] →
  run reset files table =
  match for_each (λ _ file, import_file file) 0 files
          {| routes := if reset then ∅ else table; imported := 0; skipped := 0;
             stdout := if reset
                       then ["Deleted " +:+ pretty (size table) +:+ " existing routes."]
                       else [] |} with
  | (inl e, s) => (inl e, s)
  | (inr _, s) =>
      if bool_decide (imported s = 0%nat)
      then (inl (CommandError "No routes were imported."), s)
      else (inr tt,
            {| routes := routes s; imported := imported s; skipped := skipped s;
               stdout := stdout s ++ [summary (imported s) (skipped s)] |})
  end.
Proof.
  intros Hfiles. unfold run, handle. rewrite bool_decide_false by done.
  destruct reset; unfold mbind, M_bind; simpl;
    match goal with
    | |- context [ for_each ?b ?i ?l ?s ] => destruct (for_each b i l s) as [[e|[]] s']
    end; simpl; try done; by case_bool_decide.
Qed.

Lemma run_accounting reset files table :
  files ≠ [] →
  ∃ ups,
    routes (run reset files table).2 = upserts ups (if reset then ∅ else table)
    ∧ imported (run reset files table).2 = length ups.
Proof.
  intros Hfiles. rewrite run_unfold by done.
  match goal with
  | |- context [ for_each ?b ?i ?l ?s ] =>
      destruct (accounted_for_each b i l (λ _ file, accounted_import_file file) s)
        as (ups & lines & Hr & Hi & _ & _);
      destruct (for_each b i l s) as [[e|[]] s']
  end; simpl in *; exists ups; [done|]. by case_bool_decide.
Qed.

(** Without files the command fails before anything else: the error is
    "No GeoJSON files found to import.", nothing is written, and the Route
    table is left as it was, also under [--reset]. *)
Lemma run_without_files reset table :
  (run reset [] table).1 = inl (CommandError "No GeoJSON files found to import.")
  ∧ routes (run reset [] table).2 = table
  ∧ stdout (run reset [] table).2 = [].
Proof. done. Qed.

(** X9. A run that ends normally has imported at least one route, leaves a
    table that is not empty, and its last line of output is the summary of
    its two counters. *)
Theorem run_success reset files table :
  (run reset files table).1 = inr tt →
  (0 < imported (run reset files table).2)%nat
  ∧ routes (run reset files table).2 ≠ ∅
  ∧ last (stdout (run reset files table).2)
    = Some (summary (imported (run reset files table).2)
                    (skipped (run reset files table).2)).
Proof.
  intros Hok. destruct (decide (files = [])) as [->|Hfiles]; [done|].
  destruct (run_accounting reset files table Hfiles) as (ups & Hr & Hi).
  assert (Hpos : (0 < imported (run reset files table).2)%nat ∧
                 last (stdout (run reset files table).2)
                 = Some (summary (imported (run reset files table).2)
                                 (skipped (run reset files table).2))).
  { revert Hok. rewrite run_unfold by done.
    match goal with
    | |- context [ for_each ?b ?i ?l ?s ] => destruct (for_each b i l s) as [[e|[]] s']
    end; [done|]. case_bool_decide; [done|]. simpl. intros _.
    split; [lia|]. by rewrite last_snoc. }
  destruct Hpos as [Hpos Hlast]. split; [done|]. split; [|done].
  rewrite Hr. apply upserts_non_empty. intros ->. rewrite Hi in Hpos. simpl in Hpos. lia.
Qed.

(** X10. Without [--reset] a run deletes no route: every name of the table
    is still there, and the table grows by no more than the number of routes
    the run counts as imported. *)
Theorem run_keeps_routes files table :
  dom table ⊆ dom (routes (run false files table).2)
  ∧ (size table ≤ size (routes (run false files table).2)
     ≤ size table + imported (run false files table).2)%nat.
Proof.
  destruct (decide (files = [])) as [->|Hfiles]; [simpl; split; [done|lia]|].
  destruct (run_accounting false files table Hfiles) as (ups & -> & ->).
  split; [rewrite upserts_dom; apply union_subseteq_l | apply upserts_size].
Qed.

(** X11. Under [--reset] with at least one file, the table a run leaves has
    no more routes than the run counts as imported, whatever it held
    before. *)
Theorem run_reset_size files table :
  files ≠ [] →
  (size (routes (run true files table).2) ≤ imported (run true files table).2)%nat.
Proof.
  intros Hfiles.
  destruct (run_accounting true files table Hfiles) as (ups & -> & ->).
  pose proof (upserts_size ups (∅ : gmap string LineString)) as Hsize.
  rewrite map_size_empty in Hsize. lia.
Qed.

(** X12. Whether a run ends normally or with which error, and what it counts
    as imported and skipped, does not depend on the Route table it starts
    from; under [--reset] with at least one file, neither does the table it
    leaves. *)
Theorem run_outcome_independent reset files table1 table2 :
  (run reset files table1).1 = (run reset files table2).1
  ∧ imported (run reset files table1).2 = imported (run reset files table2).2
  ∧ skipped (run reset files table1).2 = skipped (run reset files table2).2
  ∧ (reset = true → files ≠ [] →
     routes (run reset files table1).2 = routes (run reset files table2).2).
Proof.
  destruct (decide (files = [])) as [->|Hfiles]; [done|].
  rewrite !run_unfold by done.
  match goal with
  | |- context [ for_each ?b ?i ?l ?s1 ] =>
    match goal with
    | |- context [ for_each b i l ?s2 ] =>
        tryif constr_eq s1 s2 then fail else
        (destruct (table_blind_for_each b i l (λ _ file, table_blind_import_file file)
                     s1 s2) as (ups & Hv & [Hi Hk] & Hr1 & Hr2); [done|];
         destruct (for_each b i l s1) as [[e1|[]] s1'],
                  (for_each b i l s2) as [[e2|[]] s2'])
    end
  end; simpl in *; simplify_eq.
  - repeat split; try done. intros -> _. by rewrite Hr1, Hr2.
  - rewrite Hi. case_bool_decide; simpl; repeat split; try done;
      intros -> _; by rewrite Hr1, Hr2.
Qed.

(** ** Every feature is counted *)

Lemma import_segments_counted file index base_name nsegments segments : ∀ first s,
  (for_each (import_segment file index base_name nsegments) first segments s).1 = inr tt →
  (imported (for_each (import_segment file index base_name nsegments) first segments s).2
   + skipped (for_each (import_segment file index base_name nsegments) first segments s).2
   = imported s + skipped s + length segments)%nat.
Proof.
  induction segments as [|seg rest IH]; intros first s; simpl length; [simpl; lia|].
  rewrite for_each_cons, import_segment_step.
  destruct (py_len seg) as [e|n]; [done|]. case_bool_decide.
  - cbv beta iota zeta. intros Hok. rewrite IH by done. simpl. lia.
  - destruct (LineString_init seg); [|done..].
    cbv beta iota zeta. intros Hok. rewrite IH by done. simpl. lia.
Qed.

Lemma import_feature_counted file index feature s :
  (import_feature file index feature s).1 = inr tt →
  (imported s + skipped s
   < imported (import_feature file index feature s).2
     + skipped (import_feature file index feature s).2)%nat.
Proof.
  unfold import_feature, mbind, M_bind, lift.
  destruct (py_get feature "geometry") as [e|geometry]; [done|].
  destruct (truthy geometry); simpl; [|lia].
  destruct (py_get feature "properties") as [e|props]; [done|].
  destruct (resolve_base_name _ _ _) as [e|base_name]; [done|].
  destruct (py_get geometry "type") as [e|geom_type]; [done|].
  destruct (py_get geometry "coordinates") as [e|coordinates]; [done|].
  destruct (truthy coordinates); simpl; [|lia].
  destruct (normalize geom_type coordinates) as [e|[segments|]]; simpl; [done| |lia].
  case_bool_decide as Hnil; simpl; [lia|].
  intros Hok. rewrite import_segments_counted by done.
  destruct segments; [done|]. simpl. lia.
Qed.

Lemma import_features_counted file items : ∀ first s,
  (for_each (import_feature file) first items s).1 = inr tt →
  (imported s + skipped s + length items
   ≤ imported (for_each (import_feature file) first items s).2
     + skipped (for_each (import_feature file) first items s).2)%nat.
Proof.
  induction items as [|item rest IH]; intros first s; simpl length; [simpl; lia|].
  rewrite for_each_cons.
  pose proof (import_feature_counted file first item s) as Hitem.
  destruct (import_feature file first item s) as [[e|[]] s1]; [done|].
  intros Hok. specialize (IH _ _ Hok). simpl in Hitem. specialize (Hitem eq_refl). lia.
Qed.

Lemma import_file_counted file items s :
  py_get (payload file) "features" = inr (JArr items) →
  (import_file file s).1 = inr tt →
  (imported s + skipped s + length items
   ≤ imported (import_file file s).2 + skipped (import_file file s).2)%nat.
Proof.
  intros Hfeatures. unfold import_file, mbind, M_bind, lift. rewrite Hfeatures. simpl.
  case_bool_decide as Hnil; simpl.
  - subst items. simpl. lia.
  - apply import_features_counted.
Qed.

Lemma import_files_counted files : ∀ featuress first s,
  Forall2 (λ file items, py_get (payload file) "features" = inr (JArr items))
    files featuress →
  (for_each (λ _ file, import_file file) first files s).1 = inr tt →
  (imported s + skipped s + length (concat featuress)
   ≤ imported (for_each (λ _ file, import_file file) first files s).2
     + skipped (for_each (λ _ file, import_file file) first files s).2)%nat.
Proof.
  induction files as [|file rest IH]; intros featuress first s Hall.
  { apply Forall2_nil_inv_l in Hall as ->. simpl. lia. }
  apply Forall2_cons_inv_l in Hall as (items & featuress' & Hitems & Hall & ->).
  rewrite for_each_cons.
  pose proof (import_file_counted file items s Hitems) as Hfile.
  destruct (import_file file s) as [[e|[]] s1]; [done|].
  intros Hok. specialize (IH _ _ _ Hall Hok). simpl in Hfile. specialize (Hfile eq_refl).
  simpl concat. rewrite length_app. lia.
Qed.

(** X13. The summary of a run that ends normally accounts for every feature
    of its files: imported and skipped together are at least the number of
    features. *)
Theorem run_counts_every_feature reset files featuress table :
  Forall2 (λ file items, py_get (payload file) "features" = inr (JArr items))
    files featuress →
  (run reset files table).1 = inr tt →
  (length (concat featuress)
   ≤ imported (run reset files table).2 + skipped (run reset files table).2)%nat.
Proof.
  intros Hall. destruct (decide (files = [])) as [->|Hfiles]; [done|].
  rewrite run_unfold by done.
  match goal with
  | |- context [ for_each ?b ?i ?l ?s ] =>
      pose proof (import_files_counted l featuress i s Hall) as Hcount;
      destruct (for_each b i l s) as [[e|[]] s']
  end; [done|]. case_bool_decide; [done|]. simpl in *. intros _.
  specialize (Hcount eq_refl). lia.
Qed.

(** ** The fatal error *)

(** X14. When the line of the first segment of a feature cannot be built for
    a [TypeError], the feature ends with a [CommandError] that cites the
    file, the position of the feature, segment 1 and the text of the error,
    and nothing is written, counted or printed for the feature. *)
Theorem first_segment_type_error file index feature base_name geom_type coordinates
    bad after msg s :
  feature_reads file index feature base_name geom_type coordinates →
  truthy coordinates = true →
  normalize geom_type coordinates = inr (Some (bad :: after)) →
  is_long bad = true →
  LineString_init bad = GeosTypeError msg →
  import_feature file index feature s =
    (inl (CommandError (file_name file +:+ " feature " +:+ pretty index +:+
                        " segment " +:+ pretty 1%nat +:+ ": " +:+ msg)), s).
Proof.
  intros Hreads Htruthy Hnorm Hlong Hbad.
  rewrite (import_feature_segments _ _ _ _ _ _ _ _ Hreads Htruthy Hnorm).
  rewrite bool_decide_false by done.
  rewrite for_each_cons, import_segment_step. unfold is_long in Hlong.
  destruct (py_len bad) as [e|n]; [done|].
  apply bool_decide_eq_true in Hlong. rewrite bool_decide_false by lia.
  by rewrite Hbad.
Qed.

(** ** Names that do not collide *)

Lemma append_char_inj s1 s2 c :
  s1 +:+ String c "" = s2 +:+ String c "" → s1 = s2.
Proof.
  revert s2. induction s1 as [|a s1 IH]; intros [|b s2]; simpl; intros Heq.
  - done.
  - injection Heq as _ Heq. by destruct s2.
  - injection Heq as _ Heq. by destruct s1.
  - injection Heq as -> Heq. f_equal. by apply IH.
Qed.

(** X15. The segments of a feature with more than one segment get names that
    differ: two positions with the same route name are the same
    position. *)
Theorem route_name_inj base_name nsegments i j :
  (1 < nsegments)%nat →
  route_name base_name nsegments i = route_name base_name nsegments j →
  i = j.
Proof.
  intros Hmany. unfold route_name. rewrite bool_decide_true by done.
  intros Heq. do 2 apply String.app_inj in Heq.
  apply append_char_inj in Heq. by apply (inj pretty).
Qed.

(** X16. Two features of one file that have no name get generated names that
    differ: the same generated name means the same position in the
    file. *)
Theorem generated_names_distinct file i j properties1 properties2 base_name :
  unnamed properties1 →
  unnamed properties2 →
  resolve_base_name file i properties1 = inr base_name →
  resolve_base_name file j properties2 = inr base_name →
  i = j.
Proof.
  intros (u1 & l1 & Hu1 & Htu1 & Hl1 & Htl1) (u2 & l2 & Hu2 & Htu2 & Hl2 & Htl2).
  unfold resolve_base_name, mbind, exn_bind.
  rewrite Hu1, Htu1, Hl1, Htl1, Hu2, Htu2, Hl2, Htl2. simpl.
  intros [= <-] [= Heq]. do 2 apply String.app_inj in Heq.
  symmetry. by apply (inj pretty).
Qed.

End ImporterCoverage.

(** * The files of a run *)

Section CommandCoverage.
Context `{PyBuiltins, Gis, FileSystem}.

(** The two candidates of an argument. *)
Lemma resolve_path_candidates base_dir raw :
  resolve_path base_dir raw =
  if path_exists (first_candidate base_dir raw) then inr (first_candidate base_dir raw)
  else if path_exists (joinpath (data_dir base_dir) raw)
       then inr (joinpath (data_dir base_dir) raw)
       else inl (CommandError ("GeoJSON file not found: " +:+ raw)).
Proof.
  unfold resolve_path, first_candidate.
  destruct (is_absolute (Path raw)); simpl.
  - destruct (path_exists (Path raw)) eqn:Hfirst; simpl; [by rewrite Hfirst|].
    by destruct (path_exists (joinpath (data_dir base_dir) raw)).
  - destruct (path_exists (joinpath base_dir raw)) eqn:Hfirst; simpl; [by rewrite Hfirst|].
    by destruct (path_exists (joinpath (data_dir base_dir) raw)).
Qed.

Lemma resolve_path_found base_dir raw candidate :
  resolve_path base_dir raw = inr candidate →
  path_exists candidate = true
  ∧ candidate = if path_exists (first_candidate base_dir raw)
                then first_candidate base_dir raw
                else joinpath (data_dir base_dir) raw.
Proof.
  rewrite resolve_path_candidates.
  destruct (path_exists (first_candidate base_dir raw)) eqn:Hfirst; [by intros [= <-]|].
  destruct (path_exists (joinpath (data_dir base_dir) raw)) eqn:Hdata; [|done].
  by intros [= <-].
Qed.

Lemma resolve_path_missing base_dir raw :
  path_exists (first_candidate base_dir raw) = false →
  path_exists (joinpath (data_dir base_dir) raw) = false →
  resolve_path base_dir raw = inl (CommandError ("GeoJSON file not found: " +:+ raw)).
Proof. rewrite resolve_path_candidates. by intros -> ->. Qed.

(** X17. The files resolved for the arguments are as many as the arguments,
    in their order, and each exists: it is the argument itself when absolute,
    or under the project, when that exists, and otherwise the argument under
    the data directory. *)
Theorem resolve_paths_found base_dir raw_paths files :
  resolve_paths base_dir raw_paths = inr files →
  Forall2 (λ raw file,
             path_exists file = true
             ∧ file = if path_exists (first_candidate base_dir raw)
                      then first_candidate base_dir raw
                      else joinpath (data_dir base_dir) raw)
    raw_paths files.
Proof.
  revert files. induction raw_paths as [|raw rest IH]; intros files; simpl.
  { intros [= <-]. constructor. }
  unfold mbind, exn_bind.
  destruct (resolve_path base_dir raw) as [e|candidate] eqn:Hraw; [done|].
  destruct (resolve_paths base_dir rest) as [e|files']; [done|].
  intros [= <-]. constructor; [by apply resolve_path_found | by apply IH].
Qed.

(** X18. The first argument that exists neither where it is first looked for
    nor under the data directory ends the resolution with the error
    "GeoJSON file not found: " followed by that argument. *)
Theorem resolve_paths_missing base_dir found raw rest :
  Forall (λ r, path_exists (first_candidate base_dir r) = true
               ∨ path_exists (joinpath (data_dir base_dir) r) = true) found →
  path_exists (first_candidate base_dir raw) = false →
  path_exists (joinpath (data_dir base_dir) raw) = false →
  resolve_paths base_dir (found ++ raw :: rest)
  = inl (CommandError ("GeoJSON file not found: " +:+ raw)).
Proof.
  intros Hfound Hfirst Hdata.
  induction Hfound as [|r found Hr Hfound IH]; simpl; unfold mbind, exn_bind.
  - by rewrite resolve_path_missing.
  - rewrite IH, resolve_path_candidates.
    destruct (path_exists (first_candidate base_dir r)); [done|].
    by destruct Hr as [Hr|Hr]; [|rewrite Hr].
Qed.

(** X19. When an argument names no file, or when there is no argument and the
    data directory holds no route file, the command ends with a
    [CommandError] before it deletes, imports or writes anything, also
    under [--reset]. *)
Theorem Command_handle_no_files base_dir raw_paths reset s :
  (∃ raw, raw ∈ raw_paths
          ∧ path_exists (first_candidate base_dir raw) = false
          ∧ path_exists (joinpath (data_dir base_dir) raw) = false)
  ∨ (raw_paths = [] ∧ glob_sorted (data_dir base_dir) "routes_*.geojson" = []) →
  ∃ msg, Command_handle base_dir raw_paths reset s = (inl (CommandError msg), s).
Proof.
  intros [(raw & Hin & Hfirst & Hdata) | [-> Hnone]].
  - assert (Hres : ∃ msg, resolve_paths base_dir raw_paths = inl (CommandError msg)).
    { induction raw_paths as [|r rest IH]; [by apply elem_of_nil in Hin|].
      simpl. unfold mbind, exn_bind.
      destruct (resolve_path base_dir r) as [e|candidate] eqn:Hr.
      - revert Hr. rewrite resolve_path_candidates.
        repeat match goal with
               | |- context [ if ?b then _ else _ ] => destruct b
               end; intros [= <-]; eauto.
      - apply elem_of_cons in Hin as [->|Hin].
        + by rewrite resolve_path_missing in Hr.
        + destruct (IH Hin) as [msg ->]. eauto. }
    destruct Hres as [msg Hres]. exists msg.
    unfold Command_handle, resolve_files, mbind, M_bind, lift.
    rewrite bool_decide_false by (intros ->; by apply elem_of_nil in Hin).
    by rewrite Hres.
  - eexists. unfold Command_handle, resolve_files, mbind, M_bind, lift. simpl.
    rewrite Hnone. done.
Qed.

End CommandCoverage.

(** * Concrete runs for the further properties *)

Section CoverageExamples.
#[local] Existing Instance Planar.builtins.
#[local] Existing Instance Planar.gis.
#[local] Existing Instance Disk.files.
Import Fixture.

Lemma NearestAmenities_rows_are_nearest_witness :
  ∃ rows rest,
    NearestAmenities_get db nearest_two = Ok rows
    ∧ rows ++ rest ≡ₚ amenities db
    ∧ ∀ a b, a ∈ rows → b ∈ rest →
        (Distance (location a) (pt (-6.26) 53.35)
         <= Distance (location b) (pt (-6.26) 53.35))%Q.
Proof.
  apply (NearestAmenities_rows_are_nearest db nearest_two
           (Finite 53.35) (Finite (-6.26)) 2).
  - vm_compute; reflexivity.
  - vm_compute; reflexivity.
  - vm_compute; reflexivity.
  - lia.
Defined.

Lemma NearestAmenities_limit_prefix_witness :
  ∃ rows1 rows2,
    NearestAmenities_get db nearest_two = Ok rows1
    ∧ NearestAmenities_get db nearest_in_area = Ok rows2
    ∧ rows1 `prefix_of` rows2
    ∧ ∀ ordered,
        ordered ≡ₚ amenities db →
        StronglySorted (by_distance (pt (-6.26) 53.35)) ordered →
        rows1 = take (Z.to_nat (Z.min 2 100)) ordered
        ∧ rows2 = take (Z.to_nat (Z.min 5 100)) ordered.
Proof.
  apply (NearestAmenities_limit_prefix db nearest_two nearest_in_area
           (Finite 53.35) (Finite (-6.26)) 2 5).
  - vm_compute; reflexivity.
  - vm_compute; reflexivity.
  - vm_compute; reflexivity.
  - vm_compute; reflexivity.
  - vm_compute; reflexivity.
  - vm_compute; reflexivity.
  - lia.
  - intros a b Ha Hb Heq. apply list_elem_of_In in Ha, Hb. simpl in Ha, Hb.
    destruct Ha as [<-|[<-|[<-|[]]]], Hb as [<-|[<-|[<-|[]]]];
      try reflexivity; vm_compute in Heq; discriminate.
Defined.

Lemma NearestAmenities_all_rows_witness :
  ∃ rows, NearestAmenities_get db nearest_in_area = Ok rows ∧ rows ≡ₚ amenities db.
Proof.
  apply (NearestAmenities_all_rows db nearest_in_area (Finite 53.35) (Finite (-6.26)) 5).
  - vm_compute; reflexivity.
  - vm_compute; reflexivity.
  - vm_compute; reflexivity.
  - lia.
  - vm_compute; lia.
Defined.

Lemma NearestAmenities_default_limit_witness :
  NearestAmenities_get db radius_default
  = NearestAmenities_get db (<["limit" := "10"]> radius_default).
Proof.
  apply (NearestAmenities_default_limit db radius_default).
  vm_compute; reflexivity.
Defined.

Lemma AmenitiesWithinRadius_exact_witness :
  ∃ rows,
    AmenitiesWithinRadius_get db radius_negative = Ok rows
    ∧ rows ⊆+ amenities db
    ∧ ∀ a, a ∈ rows ↔
        a ∈ amenities db
        ∧ distance_lte (location a) (pt (-6.26) 53.35) (Finite (-1)) = true.
Proof.
  apply (AmenitiesWithinRadius_exact db radius_negative
           (Finite 53.35) (Finite (-6.26)) (Finite (-1))).
  - vm_compute; reflexivity.
  - vm_compute; reflexivity.
  - vm_compute; reflexivity.
Defined.

Lemma RoutesIntersectingArea_exact_witness :
  ∃ rows,
    RoutesIntersectingArea_get db within_area = Ok rows
    ∧ NoDup rows.*1
    ∧ ∀ route_name path, (route_name, path) ∈ rows ↔
        route_table db !! route_name = Some path
        ∧ intersects path (boundary test_area) = true.
Proof.
  apply (RoutesIntersectingArea_exact db within_area "1" 1%Z test_area).
  - vm_compute; reflexivity.
  - discriminate.
  - vm_compute; reflexivity.
  - vm_compute; reflexivity.
Defined.

Lemma run_success_witness :
  (0 < imported (run false [three_segments] ∅).2)%nat
  ∧ routes (run false [three_segments] ∅).2 ≠ ∅
  ∧ last (stdout (run false [three_segments] ∅).2)
    = Some (summary (imported (run false [three_segments] ∅).2)
                    (skipped (run false [three_segments] ∅).2)).
Proof.
  apply (run_success false [three_segments] ∅).
  vm_compute; reflexivity.
Defined.

Lemma run_reset_size_witness :
  (size (routes (run true [unnamed] (routes stocked)).2)
   ≤ imported (run true [unnamed] (routes stocked)).2)%nat.
Proof.
  apply (run_reset_size [unnamed] (routes stocked)).
  discriminate.
Defined.

Lemma run_counts_every_feature_witness :
  (length (concat [[canal]; [mixed]])
   ≤ imported (run false [three_segments; one_short_member] ∅).2
     + skipped (run false [three_segments; one_short_member] ∅).2)%nat.
Proof.
  apply (run_counts_every_feature false [three_segments; one_short_member]
           [[canal]; [mixed]] ∅).
  - repeat constructor.
  - vm_compute; reflexivity.
Defined.

Lemma first_segment_type_error_witness :
  import_feature corrupt 1 flat_line stocked =
    (inl (CommandError ("routes_flat.geojson" +:+ " feature " +:+ pretty 1%nat +:+
                        " segment " +:+ pretty 1%nat +:+ ": " +:+
                        "Each coordinate should be a sequence (list or tuple)")),
     stocked).
Proof.
  apply (first_segment_type_error corrupt 1 flat_line "Flat" (JStr "LineString")
           flat_member flat_member []
           "Each coordinate should be a sequence (list or tuple)" stocked).
  - exists (geometry "LineString" flat_member), (named "Flat").
    repeat split; vm_compute; reflexivity.
  - vm_compute; reflexivity.
  - vm_compute; reflexivity.
  - vm_compute; reflexivity.
  - vm_compute; reflexivity.
Defined.

Lemma route_name_inj_witness : 2%nat = 2%nat.
Proof.
  apply (route_name_inj "Canal" 3 2 2).
  - lia.
  - reflexivity.
Defined.

Lemma generated_names_distinct_witness : 2%nat = 2%nat.
Proof.
  apply (generated_names_distinct unnamed 2 2 (JObj ∅) (JObj ∅)
           "Routes Phoenix Park Feature 2").
  - exists JNull, JNull. repeat split; vm_compute; reflexivity.
  - exists JNull, JNull. repeat split; vm_compute; reflexivity.
  - vm_compute; reflexivity.
  - vm_compute; reflexivity.
Defined.

Lemma resolve_paths_found_witness :
  Forall2 (λ raw file,
             path_exists file = true
             ∧ file = if path_exists (first_candidate Disk.project raw)
                      then first_candidate Disk.project raw
                      else joinpath (data_dir Disk.project) raw)
    Disk.arguments Disk.resolved.
Proof.
  apply (resolve_paths_found Disk.project).
  vm_compute; reflexivity.
Defined.

Lemma resolve_paths_missing_witness :
  resolve_paths Disk.project (["routes_canal.geojson"] ++ "nowhere.geojson" :: [])
  = inl (CommandError ("GeoJSON file not found: " +:+ "nowhere.geojson")).
Proof.
  apply (resolve_paths_missing Disk.project ["routes_canal.geojson"] "nowhere.geojson" []).
  - constructor; [right; vm_compute; reflexivity | constructor].
  - vm_compute; reflexivity.
  - vm_compute; reflexivity.
Defined.

Lemma Command_handle_no_files_witness :
  ∃ msg, Command_handle Disk.project ["routes_canal.geojson"; "nowhere.geojson"] true stocked
         = (inl (CommandError msg), stocked).
Proof.
  apply (Command_handle_no_files Disk.project ["routes_canal.geojson"; "nowhere.geojson"]
           true stocked).
  left. exists "nowhere.geojson". split; [|split].
  - apply list_elem_of_In. simpl. tauto.
  - vm_compute; reflexivity.
  - vm_compute; reflexivity.
Defined.

(** The command on the files of the disk: the default files, and a path under
    the project. *)
Example Command_handle_default_files :
  (Command_handle Disk.project [] false start).1 = inr tt
  ∧ stdout (Command_handle Disk.project [] false start).2 =
      ["Created route: Canal (Segment 1)"; "Created route: Canal (Segment 2)";
       "Created route: Canal (Segment 3)"; "Imported or updated 3 route segments."].
Proof. by vm_compute. Qed.

End CoverageExamples.
